(** * ResNet training driver (models/experimental/resnet_float16/resnet_main.py)

    A shallow embedding of [resnet_main.py] and the properties of its
    learning-rate schedule, variable getter, model function and
    train/evaluate driver.

    Conventions.
    - Python integers are [Z]; [//] is [Z.div] (both round towards minus
      infinity) and raises [ZeroDivisionError] on a zero divisor.
    - Python and TensorFlow floating-point scalars are rationals [Q];
      TensorFlow scalar operations are read by their value ([tf.where] is a
      conditional, [<] a comparison).  The learning rate, the weight decay
      and the report are computed exactly; the epoch of the model function,
      whose place among the thresholds of the schedule depends on it, is
      rounded as the code rounds it ([round_float32], [round_float64]).
    - Operations of TensorFlow whose values the driver never inspects (the
      network, softmax, arg-max, cross entropy, the optimizer) are kept as
      constructors of the type [tensor].
    - Python dictionaries are [gmap]s; a missing key raises [KeyError]. *)

From Stdlib Require Import ZArith QArith Qround Qabs Qpower Lia Lqa String Ascii
  List.
From stdpp Require Import gmap strings list pretty.

Import ListNotations.
Local Open Scope Z_scope.

(** ** Exceptions and results *)

Inductive exn : Type :=
| RuntimeError (msg : string)
| ZeroDivisionError
| KeyError (key : string)
| ValueError (msg : string).

Inductive result (A : Type) : Type :=
| Ok (a : A)
| Raise (e : exn).

Arguments Ok {A} a.
Arguments Raise {A} e.

Definition bind {A B : Type} (r : result A) (k : A -> result B) : result B :=
  match r with
  | Ok a => k a
  | Raise e => Raise e
  end.

Declare Scope result_scope.
Delimit Scope result_scope with result.
Notation "x <- r ;; k" := (bind r (fun x => k))
  (at level 100, r at next level, right associativity) : result_scope.

(** [d[key]] on a dictionary. *)
Definition getitem {V : Type} (d : gmap string V) (key : string) : result V :=
  match d !! key with
  | Some v => Ok v
  | None => Raise (KeyError key)
  end.

(** [a // b] on integers. *)
Definition floordiv (a b : Z) : result Z :=
  if b =? 0 then Raise ZeroDivisionError else Ok (a / b).

(** ** Floating point

    The nearest number with [prec] significant bits, ties to even;
    overflow and subnormal numbers are left out. *)

(** The integer nearest to [x], ties to even. *)
Definition round_half_even (x : Q) : Z :=
  let f := Qfloor x in
  let twice := Qfloor (2 * x)%Q - 2 * f in   (* 0: below the half, 1: not *)
  if twice =? 0 then f
  else if Qeq_bool (x - inject_Z f) (1 # 2) then (if Z.even f then f else f + 1)
  else f + 1.

(** The [e] with [2 ^ e <= |x| < 2 ^ (e + 1)], for [x] other than 0. *)
Definition binade (x : Q) : Z :=
  let e := Z.log2 (Z.abs (Qnum x)) - Z.log2 (Z.pos (Qden x)) in
  if Qle_bool (Qpower 2 e) (Qabs x) then e else e - 1.

Definition round_to_precision (prec : Z) (x : Q) : Q :=
  if Qeq_bool x 0 then 0%Q
  else
    let quantum := Qpower 2 (binade x - prec + 1) in
    (inject_Z (round_half_even (x / quantum)) * quantum)%Q.

(** A value as a [tf.float32] tensor holds it. *)
Definition round_float32 : Q -> Q := round_to_precision 24.

(** A value as a Python float holds it. *)
Definition round_float64 : Q -> Q := round_to_precision 53.

(** [a / b] on integers under [from __future__ import division]: a
    float. *)
Definition truediv (a b : Z) : result Q :=
  if b =? 0 then Raise ZeroDivisionError
  else Ok (round_float64 (inject_Z a / inject_Z b))%Q.

(** [x < y] on scalars. *)
Definition Qlt_bool (x y : Q) : bool := negb (Qle_bool y x).

(** [needle in hay] on strings. *)
Fixpoint contains (needle hay : string) : bool :=
  if String.prefix needle hay then true
  else match hay with
       | EmptyString => false
       | String _ rest => contains needle rest
       end.

(** ** Flags *)

Record flags : Type := {
  use_tpu : bool;
  gcp_project : option string;
  tpu_zone : option string;
  tpu_name : option string;
  master : option string;
  data_dir : option string;
  model_dir : string;
  resnet_depth : Z;
  train_steps : Z;
  train_batch_size : Z;
  eval_batch_size : Z;
  steps_per_eval : Z;
  iterations_per_loop : Z;
  num_parallel_calls : Z;
  num_cores : Z;
  mode : string;
  data_format : string;
  export_dir : option string;
  min_eval_interval : Z;
  eval_timeout : option Z
}.

(** The defaults of the [tf.flags.DEFINE_*] calls, for a given
    [--model_dir] (the driver reads and writes under it). *)
Definition default_flags (dir : string) : flags := {|
  use_tpu := true;
  gcp_project := None;
  tpu_zone := None;
  tpu_name := None;
  master := None;
  data_dir := None;
  model_dir := dir;
  resnet_depth := 50;
  train_steps := 112590;
  train_batch_size := 1024;
  eval_batch_size := 1024;
  steps_per_eval := 1251;
  iterations_per_loop := 1251;
  num_parallel_calls := 8;
  num_cores := 8;
  mode := "train";
  data_format := "channels_last";
  export_dir := None;
  min_eval_interval := 30 * 60;
  eval_timeout := None
|}.

(** ** Dataset constants and learning hyperparameters *)

Definition LABEL_CLASSES : Z := 1000.
Definition NUM_TRAIN_IMAGES : Z := 1281167.
Definition NUM_EVAL_IMAGES : Z := 50000.

Definition BASE_LEARNING_RATE : Q := 0.1.
Definition MOMENTUM : Q := 0.9.
Definition WEIGHT_DECAY : Q := 1e-4.

(** (multiplier, epoch to start) tuples *)
Definition LR_SCHEDULE : list (Q * Z) :=
  [(1.0%Q, 5); (0.1%Q, 30); (0.01%Q, 60); (0.001%Q, 80)].

(** ** learning_rate_schedule *)

Definition tf_where (cond : bool) (x y : Q) : Q := if cond then x else y.

Definition scaled_lr (FLAGS : flags) : Q :=
  (BASE_LEARNING_RATE * (inject_Z (train_batch_size FLAGS) / 256.0))%Q.

(** The [for mult, start_epoch in schedule] loop, for any schedule. *)
Definition lr_decay_loop (scaled : Q) (current_epoch : Q)
    (schedule : list (Q * Z)) (decay_rate : Q) : Q :=
  fold_left
    (fun decay_rate '(mult, start_epoch) =>
       tf_where (Qlt_bool current_epoch (inject_Z start_epoch))
                decay_rate (scaled * mult)%Q)
    schedule decay_rate.

Definition learning_rate_schedule (FLAGS : flags) (current_epoch : Q) : Q :=
  let scaled_lr := scaled_lr FLAGS in
  let first := nth 0 LR_SCHEDULE (0%Q, 0) in
  let decay_rate :=
    (scaled_lr * fst first * current_epoch / inject_Z (snd first))%Q in
  lr_decay_loop scaled_lr current_epoch LR_SCHEDULE decay_rate.

(** ** Tensors

    Graph values.  [Scalar] carries a number the model computes; the other
    constructors stand for TensorFlow operations the program only passes
    on.  [ResnetV1 scope ...] is the output of [resnet_model.resnet_v1]
    applied under [tf.variable_scope(scope, custom_getter=...)]. *)

Inductive dtype : Type :=
| bfloat16 | float16 | float32 | float64 | int32 | int64.

#[global] Instance dtype_eq_dec : EqDecision dtype.
Proof. solve_decision. Defined.

(** A keyword argument of a variable getter: a [tf.DType], or a Python
    object that is no dtype and names none (a shape, an initializer, a
    flag, ...), kept by its [repr]. *)
Inductive kwarg : Type :=
| DType (d : dtype)
| PyObj (repr : string).

Inductive optimizer : Type :=
| MomentumOptimizer (learning_rate momentum : Q) (use_nesterov : bool)
| TowerOptimizer (opt : optimizer).

#[local] Set Warnings "-register-all".
Inductive tensor : Type :=
| Placeholder (name : string)
| TfVariable (args : list kwarg) (kwargs : gmap string kwarg)
| Cast (x : tensor) (d : dtype)
| Transpose (x : tensor) (perm : list Z)
| ResnetV1 (scope : string) (resnet_depth num_classes : Z)
    (data_format : string) (inputs : tensor) (is_training : bool)
| Argmax (x : tensor) (axis : Z)
| Softmax (logits : tensor)
| OneHot (labels : tensor) (depth : Z)
| SoftmaxCrossEntropy (logits onehot_labels : tensor)
| Scalar (q : Q)
| Add (x y : tensor)
| Accuracy (labels predictions : tensor)
| UpdateOp (name : string)
| Minimize (opt : optimizer) (loss : tensor)
| Group (op : tensor) (ops : list tensor).

(** ** get_custom_getter *)

(** [requested_dtype == tf.bfloat16] *)
Definition is_bfloat16 (v : kwarg) : bool :=
  match v with
  | DType bfloat16 => true
  | _ => false
  end.

Definition inner_custom_getter
    (getter : list kwarg -> gmap string kwarg -> result tensor)
    (args : list kwarg) (kwargs : gmap string kwarg) : result tensor :=
  (requested_dtype <- getitem kwargs "dtype" ;;
   let '(kwargs, cast_to_bfloat16) :=
     if is_bfloat16 requested_dtype
     then (<["dtype" := DType float32]> kwargs, true)
     else (kwargs, false) in
   var <- getter args kwargs ;;
   let var := if (cast_to_bfloat16 : bool) then Cast var float32 else var in
   Ok var)%result.

Definition get_custom_getter := inner_custom_getter.

(** The getter of [tf.get_variable] that [inner_custom_getter] wraps, on
    a request it accepts: it creates the variable it is asked for. *)
Definition true_getter (args : list kwarg) (kwargs : gmap string kwarg)
    : result tensor :=
  Ok (TfVariable args kwargs).

(** The dtype of a value, where the constructors above fix it. *)
Definition dtype_of (t : tensor) : option dtype :=
  match t with
  | TfVariable _ kwargs =>
      match kwargs !! "dtype" with
      | Some (DType d) => Some d
      | _ => None
      end
  | Cast _ d => Some d
  | _ => None
  end.

(** ** resnet_model_fn

    The model function at the current values of the variables.  The
    summaries and [tf.identity] calls, which only name and log tensors, are
    left out. *)

(** A trainable variable of the graph, with its current entries. *)
Record variable : Type := {
  name : string;
  value : list Q
}.

(** The collections of the default graph once the network is built. *)
Record graph : Type := {
  trainable_variables : list variable;
  global_step : Z;
  update_ops : list tensor
}.

(** [features] is a tensor or a dictionary of tensors. *)
Inductive features_arg : Type :=
| FeatureTensor (t : tensor)
| FeatureDict (d : gmap string tensor).

Module ModeKeys.
Definition TRAIN : string := "train".
Definition EVAL : string := "eval".
Definition PREDICT : string := "infer".
End ModeKeys.

(** The arguments with which [tf.estimator.EstimatorSpec] is called; what
    the constructor makes of them (its checks, the defaults it fills in)
    is left out. *)
Record EstimatorSpec : Type := {
  spec_mode : string;
  predictions : list (string * tensor);
  loss : option tensor;
  train_op : option tensor;
  eval_metric_ops : option (list (string * tensor));
  export_outputs : option (list (string * list (string * tensor)))
}.

(** [tf.nn.l2_loss(v)]: [sum(v ** 2) / 2]. *)
Definition l2_loss (v : variable) : Q :=
  (fold_right (fun x acc => x * x + acc) 0 (value v) / 2)%Q.

(** [tf.add_n]: the sum of a list of tensors, which must not be empty. *)
Definition add_n (inputs : list Q) : result Q :=
  match inputs with
  | [] => Raise (ValueError "inputs must be a list of at least one Tensor")
  | _ => Ok (fold_right Qplus 0%Q inputs)
  end.

(** [WEIGHT_DECAY * tf.add_n([tf.nn.l2_loss(v) for v in
    tf.trainable_variables() if 'batch_normalization' not in v.name])] *)
Definition weight_decay_term (g : graph) : result Q :=
  (s <- add_n (map l2_loss
                 (List.filter
                    (fun v => negb (contains "batch_normalization" (name v)))
                    (trainable_variables g))) ;;
   Ok (WEIGHT_DECAY * s)%Q)%result.

Definition resnet_model_fn (FLAGS : flags) (g : graph)
    (features : features_arg) (labels : tensor) (mode : string)
    (params : gmap string Z) : result EstimatorSpec :=
  (features <- match features with
               | FeatureDict d => getitem d "feature"
               | FeatureTensor t => Ok t
               end ;;
   let features :=
     if String.eqb (data_format FLAGS) "channels_first"
     then Transpose features [0; 3; 1; 2]
     else features in
   let logits :=
     ResnetV1 "cg" (resnet_depth FLAGS) LABEL_CLASSES (data_format FLAGS)
              features (String.eqb mode ModeKeys.TRAIN) in
   let logits := Cast logits float32 in
   let predictions :=
     [("classes", Argmax logits 1); ("probabilities", Softmax logits)] in
   if String.eqb mode ModeKeys.PREDICT then
     Ok {| spec_mode := mode;
           predictions := predictions;
           loss := None;
           train_op := None;
           eval_metric_ops := None;
           export_outputs := Some [("classify", predictions)] |}
   else
     batch_size <- getitem params "batch_size" ;;
     let one_hot_labels := OneHot labels LABEL_CLASSES in
     let cross_entropy := SoftmaxCrossEntropy logits one_hot_labels in
     decay <- weight_decay_term g ;;
     let loss := Add cross_entropy (Scalar decay) in
     train_op <-
       (if String.eqb mode ModeKeys.TRAIN then
          let global_step := global_step g in
          batches_per_epoch <-
            truediv NUM_TRAIN_IMAGES (train_batch_size FLAGS) ;;
          let current_epoch :=
            round_float32 (round_float32 (inject_Z global_step)
                           / round_float32 batches_per_epoch)%Q in
          let learning_rate := learning_rate_schedule FLAGS current_epoch in
          let optimizer := MomentumOptimizer learning_rate MOMENTUM true in
          let optimizer := TowerOptimizer optimizer in
          let update_ops := update_ops g in
          Ok (Some (Group (Minimize optimizer loss) update_ops))
        else Ok None) ;;
     let accuracy :=
       Accuracy (Argmax one_hot_labels 1) (Argmax logits 1) in
     let metrics := [("accuracy", accuracy)] in
     Ok {| spec_mode := mode;
           predictions := predictions;
           loss := Some loss;
           train_op := train_op;
           eval_metric_ops := Some metrics;
           export_outputs := None |})%result.

(** ** The driver's world

    What [main] reads and changes outside the process: the checkpoint
    store, the file system, the clock; and the record of the calls it
    makes to the estimator. *)

Inductive event : Type :=
| Train (max_steps : Z)
| Evaluate (steps : Z)
| WriteFile (path content : string).

Record world : Type := {
  checkpoint : gmap string Z;   (* model directory -> persisted global step *)
  files : gmap string string;   (* path -> content *)
  calls : list event;           (* oldest first *)
  clock_reads : nat             (* calls of [time.time()] so far *)
}.

(** What the world answers: the clock at each reading, the metrics of an
    evaluation, the text [csv] writes for a float. *)
Record runtime : Type := {
  clock : nat -> Q;
  evaluate_metrics : world -> gmap string Q;
  float_repr : Q -> string;
  (* TPUClusterResolver(tpu_name, zone, project).get_master() *)
  get_master : option string -> option string -> option string -> string
}.

(** Computations of the driver: they change the world and return or
    raise. *)
Definition M (A : Type) : Type := world -> result A * world.

Definition ret {A : Type} (a : A) : M A := fun w => (Ok a, w).

Definition mbind {A B : Type} (m : M A) (k : A -> M B) : M B :=
  fun w =>
    match m w with
    | (Ok a, w') => k a w'
    | (Raise e, w') => (Raise e, w')
    end.

Definition lift {A : Type} (r : result A) : M A := fun w => (r, w).

Declare Scope driver_scope.
Delimit Scope driver_scope with driver.
Notation "x <- m ;; k" := (mbind m (fun x => k))
  (at level 100, m at next level, right associativity) : driver_scope.
Notation "m ;; k" := (mbind m (fun _ => k))
  (at level 100, right associativity) : driver_scope.

Definition record_call (ev : event) : M unit :=
  fun w => (Ok tt, {| checkpoint := checkpoint w;
                      files := files w;
                      calls := calls w ++ [ev];
                      clock_reads := clock_reads w |}).

(** [estimator._load_global_step_from_checkpoint_dir(dir)]: the persisted
    global step, 0 when there is no checkpoint. *)
Definition load_global_step_from_checkpoint_dir (dir : string) : M Z :=
  fun w => (Ok (default 0 (checkpoint w !! dir)), w).

(** [resnet_classifier.train(input_fn, max_steps)]: trains until the
    global step reaches [max_steps] and persists it; no step is taken when
    the global step is already there. *)
Definition estimator_train (dir : string) (max_steps : Z) : M unit :=
  (record_call (Train max_steps) ;;
   fun w =>
     let step := default 0 (checkpoint w !! dir) in
     (Ok tt, {| checkpoint := <[dir := Z.max step max_steps]> (checkpoint w);
                files := files w;
                calls := calls w;
                clock_reads := clock_reads w |}))%driver.

(** [resnet_classifier.evaluate(input_fn, steps)]: a dictionary of
    metrics. *)
Definition estimator_evaluate (rt : runtime) (steps : Z)
    : M (gmap string Q) :=
  (record_call (Evaluate steps) ;;
   fun w => (Ok (evaluate_metrics rt w), w))%driver.

(** [time.time()] *)
Definition time_time (rt : runtime) : M Q :=
  fun w => (Ok (clock rt (clock_reads w)),
            {| checkpoint := checkpoint w;
               files := files w;
               calls := calls w;
               clock_reads := S (clock_reads w) |}).

(** Opening [path] in mode ['wb'] and writing [content]: the file is
    created or replaced. *)
Definition write_file (path content : string) : M unit :=
  (record_call (WriteFile path content) ;;
   fun w => (Ok tt, {| checkpoint := checkpoint w;
                       files := <[path := content]> (files w);
                       calls := calls w;
                       clock_reads := clock_reads w |}))%driver.

(** ** Formatting *)

(** [int(x)] on a float: truncation towards zero. *)
Definition int (x : Q) : Z := Z.quot (Qnum x) (Z.pos (Qden x)).

Definition two_digits (n : Z) : string :=
  if n <? 10 then "0" +:+ pretty n else pretty n.

(** ['{0:.2f}'.format(x)] *)
Definition format_2f (x : Q) : string :=
  let hundredths := round_half_even (Qabs x * 100)%Q in
  let sign := if Qlt_bool x 0 then "-" else "" in
  sign +:+ pretty (hundredths / 100) +:+ "." +:+ two_digits (hundredths mod 100).

(** ** The report *)

Inductive cell : Type :=
| IntCell (n : Z)
| FloatCell (x : Q)
| StrCell (s : string).

Definition cell_text (rt : runtime) (c : cell) : string :=
  match c with
  | IntCell n => pretty n
  | FloatCell x => float_repr rt x
  | StrCell s => s
  end.

Definition tab : string := String (ascii_of_nat 9) EmptyString.
Definition crlf : string :=
  String (ascii_of_nat 13) (String (ascii_of_nat 10) EmptyString).

Fixpoint join (sep : string) (fields : list string) : string :=
  match fields with
  | [] => ""
  | [f] => f
  | f :: rest => f +:+ sep +:+ join sep rest
  end.

(** [csv.writer(f, delimiter='\t').writerow(row)]; no field of the report
    needs quoting. *)
Definition writerow (rt : runtime) (row : list cell) : string :=
  join tab (map (cell_text rt) row) +:+ crlf.

Definition writerows (rt : runtime) (rows : list (list cell)) : string :=
  String.concat "" (map (writerow rt) rows).

Definition header : list cell :=
  [StrCell "epoch"; StrCell "hours"; StrCell "top1Accuracy";
   StrCell "top5Accuracy"].

(** ** main

    The estimator, its configuration and the input pipelines are built
    without effect on the world and are left out, as is logging; the
    clock readings that logging makes are kept. *)

(** Lines 333-352: the gRPC URL of the TPU device to use. *)
Definition tpu_grpc_url (FLAGS : flags) (rt : runtime)
    : result (option string) :=
  if use_tpu FLAGS then
    if andb (bool_decide (master FLAGS = None))
            (bool_decide (tpu_name FLAGS = None))
    then Raise (RuntimeError "You must specify either --master or --tpu_name.")
    else
      match master FLAGS with
      | Some url => Ok (Some url)
      | None =>
          Ok (Some (get_master rt (tpu_name FLAGS) (tpu_zone FLAGS)
                               (gcp_project FLAGS)))
      end
  else Ok None.

(** Lines 393-396: the step, the clock and the epoch the loop starts
    from. *)
Definition startup (FLAGS : flags) (rt : runtime) : M (Q * Z * Z) :=
  (current_step <- load_global_step_from_checkpoint_dir (model_dir FLAGS) ;;
   start_timestamp <- time_time rt ;;
   current_epoch <- lift (floordiv current_step (train_batch_size FLAGS)) ;;
   batches_per_epoch <-
     lift (floordiv NUM_TRAIN_IMAGES (train_batch_size FLAGS)) ;;
   ret (start_timestamp, current_epoch, batches_per_epoch))%driver.

(** Lines 400-404: one training phase. *)
Definition train_phase (FLAGS : flags) (batches_per_epoch current_epoch : Z)
    : M Z :=
  (let next_checkpoint := (current_epoch + 1) * batches_per_epoch in
   estimator_train (model_dir FLAGS) next_checkpoint ;;
   ret (current_epoch + 1))%driver.

(** Lines 405-427: the evaluation phase and the row it reports. *)
Definition eval_phase (FLAGS : flags) (rt : runtime) (start_timestamp : Q)
    (current_epoch : Z) : M (list cell) :=
  (now <- time_time rt ;;
   let training_time := (now - start_timestamp)%Q in
   _now <- time_time rt ;;
   steps <- lift (floordiv NUM_EVAL_IMAGES (eval_batch_size FLAGS)) ;;
   eval_results <- estimator_evaluate rt steps ;;
   now <- time_time rt ;;
   let elapsed_time := int (now - start_timestamp)%Q in
   top1 <- lift (getitem eval_results "accuracy") ;;
   top5 <- lift (getitem eval_results "accuracy") ;;
   ret [IntCell current_epoch;
        FloatCell (inject_Z elapsed_time / 3600.0)%Q;
        StrCell (format_2f (top1 * 100)%Q);
        StrCell (format_2f (top5 * 100)%Q)])%driver.

(** The [while current_epoch < 100] loop.  [fuel] bounds the iterations;
    [main] supplies as many as the loop can take. *)
Fixpoint epoch_loop (fuel : nat) (FLAGS : flags) (rt : runtime)
    (start_timestamp : Q) (batches_per_epoch current_epoch : Z)
    (results : list (list cell)) : M (option (list (list cell))) :=
  if current_epoch <? 100 then
    match fuel with
    | O => ret None
    | S fuel =>
        (current_epoch <- train_phase FLAGS batches_per_epoch current_epoch ;;
         row <- eval_phase FLAGS rt start_timestamp current_epoch ;;
         epoch_loop fuel FLAGS rt start_timestamp batches_per_epoch
                    current_epoch (results ++ [row]))%driver
    end
  else ret (Some results).

Definition report_path (FLAGS : flags) : string :=
  model_dir FLAGS +:+ "/epoch_results.tsv".

Definition main (FLAGS : flags) (rt : runtime) : M (option unit) :=
  (tpu_grpc_url <- lift (tpu_grpc_url FLAGS rt) ;;
   init <- startup FLAGS rt ;;
   let '(start_timestamp, current_epoch, batches_per_epoch) := init in
   let results := [] in
   results <- epoch_loop (Z.to_nat (100 - current_epoch)) FLAGS rt
                start_timestamp batches_per_epoch current_epoch results ;;
   match results with
   | None => ret None
   | Some results =>
       write_file (report_path FLAGS)
                  (writerow rt header +:+ writerows rt results) ;;
       ret (Some tt)
   end)%driver.

(** ** Vocabulary of the statements *)

(** The variables that enter the weight decay. *)
Definition decayed (vars : list variable) : list variable :=
  List.filter (fun v => negb (contains "batch_normalization" (name v))) vars.

Definition sum_l2_loss (vars : list variable) : Q :=
  fold_right Qplus 0%Q (map l2_loss vars).

(** The sum of the squares of the entries of a variable. *)
Definition sum_of_squares (v : variable) : Q :=
  fold_right Qplus 0%Q (map (fun x => x * x)%Q (value v)).

(** [n] is the L2 norm of [v]. *)
Definition L2_norm_is (v : variable) (n : Q) : Prop :=
  (0 <= n)%Q /\ (n * n == sum_of_squares v)%Q.

(** Half the squared L2 norm of [v]. *)
Definition half_squared_norm (v : variable) : Q := (sum_of_squares v / 2)%Q.

(** The sum of [f] over [vars]. *)
Definition total (f : variable -> Q) (vars : list variable) : Q :=
  fold_right Qplus 0%Q (map f vars).

(** A parameter of a normalization layer: [tf.layers.batch_normalization]
    creates its parameters under the scope [batch_normalization], which
    their names carry. *)
Definition of_normalization_layer (v : variable) : Prop :=
  exists scope rest : string,
    name v = scope +:+ "batch_normalization" +:+ rest.

(** Two lists of variables that differ at most in the entries of
    parameters of normalization layers. *)
Definition same_but_normalization (vars vars' : list variable) : Prop :=
  Forall2
    (fun v v' =>
       name v = name v' /\
       (~ of_normalization_layer v -> value v = value v'))
    vars vars'.

(** [g] with the trainable variables [vars]. *)
Definition with_trainable_variables (vars : list variable) (g : graph)
    : graph :=
  {| trainable_variables := vars;
     global_step := global_step g;
     update_ops := update_ops g |}.

Definition with_mode (mode : string) (spec : EstimatorSpec) : EstimatorSpec :=
  {| spec_mode := mode;
     predictions := predictions spec;
     loss := loss spec;
     train_op := train_op spec;
     eval_metric_ops := eval_metric_ops spec;
     export_outputs := export_outputs spec |}.

(** A graph with one convolution kernel and one batch-normalization
    scale. *)
Definition small_graph (kernel gamma : list Q) : graph :=
  {| trainable_variables :=
       [ {| name := "cg/conv2d/kernel:0"; value := kernel |};
         {| name := "cg/batch_normalization/gamma:0"; value := gamma |} ];
     global_step := 0;
     update_ops := [UpdateOp "cg/batch_normalization/AssignMovingAvg"] |}.

(** The estimator calls of the loop started at [current_epoch], when every
    iteration completes. *)
Definition loop_calls (FLAGS : flags) (batches_per_epoch current_epoch : Z)
    : list event :=
  flat_map
    (fun epoch =>
       [Train ((epoch + 1) * batches_per_epoch);
        Evaluate (NUM_EVAL_IMAGES / eval_batch_size FLAGS)])
    (seqZ current_epoch (100 - current_epoch)).

(** [row] reports [epoch] with an accuracy that an evaluation returned. *)
Definition reports (rt : runtime) (epoch : Z) (row : list cell) : Prop :=
  exists (hours accuracy : Q) (w : world),
    evaluate_metrics rt w !! "accuracy" = Some accuracy /\
    row = [IntCell epoch; FloatCell hours;
           StrCell (format_2f (accuracy * 100)%Q);
           StrCell (format_2f (accuracy * 100)%Q)].

(** [n] is [x] without its fractional part. *)
Definition truncates (x : Q) (n : Z) : Prop :=
  ((0 <= x -> inject_Z n <= x /\ x < inject_Z n + 1) /\
   (x <= 0 -> x <= inject_Z n /\ inject_Z n - 1 < x))%Q.

(** The numeral with two decimals of [hundredths / 100], for a count that
    is not negative. *)
Definition two_decimals (hundredths : Z) : string :=
  pretty (hundredths / 100) +:+ "." +:+ pretty (hundredths / 10 mod 10)
  +:+ pretty (hundredths mod 10).

(** The world once [main] has read the checkpoint and the clock. *)
Definition started (w : world) : world :=
  {| checkpoint := checkpoint w;
     files := files w;
     calls := calls w;
     clock_reads := S (clock_reads w) |}.

(** The world once the training of the epoch after [current_epoch] has
    returned. *)
Definition after_training (FLAGS : flags)
    (batches_per_epoch current_epoch : Z) (v : world) : world :=
  {| checkpoint :=
       <[model_dir FLAGS :=
           Z.max (default 0 (checkpoint v !! model_dir FLAGS))
                 ((current_epoch + 1) * batches_per_epoch)]> (checkpoint v);
     files := files v;
     calls := calls v ++ [Train ((current_epoch + 1) * batches_per_epoch)];
     clock_reads := clock_reads v |}.

(** The world in which that epoch is evaluated, two clock readings
    later. *)
Definition at_evaluation (FLAGS : flags)
    (batches_per_epoch current_epoch : Z) (v : world) : world :=
  let trained := after_training FLAGS batches_per_epoch current_epoch v in
  {| checkpoint := checkpoint trained;
     files := files trained;
     calls := calls trained
              ++ [Evaluate (NUM_EVAL_IMAGES / eval_batch_size FLAGS)];
     clock_reads := S (S (clock_reads trained)) |}.

(** The world once the clock is read after the evaluation. *)
Definition after_epoch (FLAGS : flags)
    (batches_per_epoch current_epoch : Z) (v : world) : world :=
  let evaluated := at_evaluation FLAGS batches_per_epoch current_epoch v in
  {| checkpoint := checkpoint evaluated;
     files := files evaluated;
     calls := calls evaluated;
     clock_reads := S (clock_reads evaluated) |}.

(** The next [n] epochs of a loop that stands at [current_epoch] in the
    world [v], each with the world in which it is evaluated. *)
Fixpoint evaluations (n : nat) (FLAGS : flags)
    (batches_per_epoch current_epoch : Z) (v : world) : list (Z * world) :=
  match n with
  | O => []
  | S n =>
      (current_epoch + 1,
       at_evaluation FLAGS batches_per_epoch current_epoch v)
      :: evaluations n FLAGS batches_per_epoch (current_epoch + 1)
           (after_epoch FLAGS batches_per_epoch current_epoch v)
  end.

(** [line] is the line of the report for an epoch evaluated in the world
    [u], in a run started at [start_timestamp]: the epoch; the whole
    seconds from the start to the clock reading after the evaluation,
    divided by 3600; and twice the numeral with two decimals that differs
    from 100 times the accuracy of that evaluation by less than 0.01. *)
Definition report_line (rt : runtime) (start_timestamp : Q)
    (evaluation : Z * world) (line : string) : Prop :=
  exists (accuracy : Q) (seconds hundredths : Z),
    evaluate_metrics rt (snd evaluation) !! "accuracy" = Some accuracy /\
    truncates (clock rt (clock_reads (snd evaluation)) - start_timestamp)
              seconds /\
    (Qabs (inject_Z hundredths - accuracy * 10000) < 1)%Q /\
    line
    = pretty (fst evaluation) +:+ tab
      +:+ float_repr rt (inject_Z seconds / 3600.0)%Q +:+ tab
      +:+ two_decimals hundredths +:+ tab
      +:+ two_decimals hundredths +:+ crlf.

(** An event is no evaluation over a number of batches other than
    [NUM_EVAL_IMAGES // eval_batch_size]. *)
Definition evaluates_truncated (FLAGS : flags) (ev : event) : Prop :=
  match ev with
  | Evaluate steps => steps = NUM_EVAL_IMAGES / eval_batch_size FLAGS
  | _ => True
  end.

(** [main] killed as its [n]-th training phase returns. *)
Fixpoint epochs_until_trained (n : nat) (FLAGS : flags) (rt : runtime)
    (start_timestamp : Q) (batches_per_epoch current_epoch : Z) : M unit :=
  match n with
  | O => ret tt
  | S n' =>
      (current_epoch <- train_phase FLAGS batches_per_epoch current_epoch ;;
       match n' with
       | O => ret tt
       | S _ =>
           eval_phase FLAGS rt start_timestamp current_epoch ;;
           epochs_until_trained n' FLAGS rt start_timestamp batches_per_epoch
                                current_epoch
       end)%driver
  end.

Definition main_until_trained (n : nat) (FLAGS : flags) (rt : runtime)
    : M unit :=
  (lift (tpu_grpc_url FLAGS rt) ;;
   init <- startup FLAGS rt ;;
   let '(start_timestamp, current_epoch, batches_per_epoch) := init in
   epochs_until_trained n FLAGS rt start_timestamp batches_per_epoch
                        current_epoch)%driver.

(** The [max_steps] of the training calls of a trace. *)
Definition train_targets (tr : list event) : list Z :=
  flat_map (fun ev => match ev with Train s => [s] | _ => [] end) tr.

(** A run on a workstation: no TPU, the default batch sizes. *)
Definition local_flags (dir : string) : flags := {|
  use_tpu := false;
  gcp_project := None;
  tpu_zone := None;
  tpu_name := None;
  master := None;
  data_dir := None;
  model_dir := dir;
  resnet_depth := 50;
  train_steps := 112590;
  train_batch_size := 1024;
  eval_batch_size := 1024;
  steps_per_eval := 1251;
  iterations_per_loop := 1251;
  num_parallel_calls := 8;
  num_cores := 8;
  mode := "train";
  data_format := "channels_last";
  export_dir := None;
  min_eval_interval := 30 * 60;
  eval_timeout := None
|}.

(** [FLAGS] with [--train_batch_size=n]. *)
Definition with_train_batch_size (n : Z) (FLAGS : flags) : flags := {|
  use_tpu := use_tpu FLAGS;
  gcp_project := gcp_project FLAGS;
  tpu_zone := tpu_zone FLAGS;
  tpu_name := tpu_name FLAGS;
  master := master FLAGS;
  data_dir := data_dir FLAGS;
  model_dir := model_dir FLAGS;
  resnet_depth := resnet_depth FLAGS;
  train_steps := train_steps FLAGS;
  train_batch_size := n;
  eval_batch_size := eval_batch_size FLAGS;
  steps_per_eval := steps_per_eval FLAGS;
  iterations_per_loop := iterations_per_loop FLAGS;
  num_parallel_calls := num_parallel_calls FLAGS;
  num_cores := num_cores FLAGS;
  mode := mode FLAGS;
  data_format := data_format FLAGS;
  export_dir := export_dir FLAGS;
  min_eval_interval := min_eval_interval FLAGS;
  eval_timeout := eval_timeout FLAGS
|}.

(** A world in which every clock reading is an hour after the previous
    one and every evaluation finds an accuracy of 0.7123. *)
Definition steady_runtime : runtime := {|
  clock := fun n => inject_Z (3600 * Z.of_nat n);
  evaluate_metrics := fun _ => {["accuracy" := 0.7123%Q; "loss" := 1.25%Q]};
  float_repr := fun x => pretty (Qnum x) +:+ "/" +:+ pretty (Z.pos (Qden x));
  get_master := fun _ _ _ => "grpc://10.0.0.2:8470"
|}.

(** The world with the global step [step] persisted under [dir] and the
    file [old] at the path of the report. *)
Definition world_at (dir : string) (step : Z) (old : option string) : world := {|
  checkpoint := {[dir := step]};
  files := match old with
           | Some content => {[dir +:+ "/epoch_results.tsv" := content]}
           | None => ∅
           end;
  calls := [];
  clock_reads := 0
|}.

Definition fresh_world : world :=
  {| checkpoint := ∅; files := ∅; calls := []; clock_reads := 0 |}.

(** The process is started again on the checkpoints and files of [w]. *)
Definition restart (w : world) : world :=
  {| checkpoint := checkpoint w; files := files w; calls := [];
     clock_reads := 0 |}.

(** [m] only adds calls that satisfy [P]. *)
Definition appends {A : Type} (P : event -> Prop) (m : M A) : Prop :=
  forall w, exists tr, calls (snd (m w)) = calls w ++ tr /\ Forall P tr.

(** * Properties *)

(** ** Scalars *)

Lemma Qlt_bool_true (x y : Q) : Qlt_bool x y = true <-> (x < y)%Q.
Proof.
  unfold Qlt_bool. rewrite negb_true_iff.
  split; intros H.
  - apply Qnot_le_lt. intros Hle. apply Qle_bool_iff in Hle. congruence.
  - destruct (Qle_bool y x) eqn:E; [|reflexivity].
    apply Qle_bool_iff in E. exfalso. exact (Qlt_not_le _ _ H E).
Qed.

Lemma Qlt_bool_false (x y : Q) : Qlt_bool x y = false <-> (y <= x)%Q.
Proof.
  unfold Qlt_bool. rewrite negb_false_iff. apply Qle_bool_iff.
Qed.

(** ** learning_rate_schedule *)

Section LearningRate.
Variable FLAGS : flags.
Local Open Scope Q_scope.

(** A pair whose threshold is met sets the rate, and pairs whose
    threshold is not met leave it. *)
Lemma lr_decay_loop_unmet scaled e schedule d :
  Forall (fun p => e < inject_Z (snd p)) schedule ->
  lr_decay_loop scaled e schedule d = d.
Proof.
  unfold lr_decay_loop. revert d.
  induction schedule as [|[m s] rest IH]; intros d Hall; [reflexivity|].
  inversion Hall as [|? ? Hlt Hrest]; subst. cbn [fold_left snd] in *.
  apply Qlt_bool_true in Hlt. rewrite Hlt. cbn [tf_where]. now apply IH.
Qed.

Lemma lr_decay_loop_last scaled e before mult start after d :
  inject_Z start <= e ->
  Forall (fun p => e < inject_Z (snd p)) after ->
  lr_decay_loop scaled e (before ++ (mult, start) :: after) d
  = scaled * mult.
Proof.
  intros Hmet Hafter. unfold lr_decay_loop.
  rewrite fold_left_app. cbn [fold_left].
  apply Qlt_bool_false in Hmet. rewrite Hmet. cbn [tf_where].
  now apply lr_decay_loop_unmet.
Qed.

Lemma warmup_rate e :
  e < 5 ->
  learning_rate_schedule FLAGS e = scaled_lr FLAGS * 1.0 * e / inject_Z 5.
Proof.
  intros He. unfold learning_rate_schedule. cbn [nth LR_SCHEDULE fst snd].
  apply lr_decay_loop_unmet.
  repeat constructor; cbn [snd]; unfold inject_Z in *; lra.
Qed.
End LearningRate.

Lemma scaled_lr_nonneg (FLAGS : flags) :
  0 <= train_batch_size FLAGS -> (0 <= scaled_lr FLAGS)%Q.
Proof.
  intros Hb. unfold scaled_lr, BASE_LEARNING_RATE.
  assert (0 <= inject_Z (train_batch_size FLAGS))%Q as H.
  { change 0%Q with (inject_Z 0). now rewrite <- Zle_Qle. }
  unfold Qdiv. cbn [Qinv Qnum Qden]. lra.
Qed.

(** A later pair of the schedule cannot be met when the largest met
    threshold is [start]. *)
Ltac later_unmet Hmax :=
  repeat constructor; cbn [snd];
  match goal with
  | |- (?e < inject_Z ?s)%Q =>
      destruct (Qlt_le_dec e (inject_Z s)) as [Hlt|Hle]; [exact Hlt|];
      exfalso;
      match type of Hmax with
      | forall m' s', In _ ?sched -> _ =>
          let Hin := fresh in
          eassert (In (_, s) sched) as Hin by (cbn; tauto);
          specialize (Hmax _ _ Hin Hle); lia
      end
  end.

(** C3.  The schedule starts at 0, reaches the scaled base rate at epoch 5,
    stays at a thousandth of it from epoch 80 on, does not decrease before
    epoch 5 (for a batch size that is not negative), and at every epoch
    where some threshold of [LR_SCHEDULE] is met it is the scaled base rate
    times the multiplier of the pair with the largest met threshold. *)
Theorem learning_rate_schedule_shape (FLAGS : flags) :
  (learning_rate_schedule FLAGS 0 == 0)%Q /\
  (learning_rate_schedule FLAGS 5
   == BASE_LEARNING_RATE * (inject_Z (train_batch_size FLAGS) / 256.0) * 1.0)%Q /\
  (forall e : Q,
      (80 <= e)%Q ->
      (learning_rate_schedule FLAGS e
       == BASE_LEARNING_RATE * (inject_Z (train_batch_size FLAGS) / 256.0)
          * 0.001)%Q) /\
  (0 <= train_batch_size FLAGS ->
   forall e1 e2 : Q,
     (e1 <= e2)%Q -> (e2 < 5)%Q ->
     (learning_rate_schedule FLAGS e1 <= learning_rate_schedule FLAGS e2)%Q) /\
  (forall (e : Q) (mult : Q) (start : Z),
      In (mult, start) LR_SCHEDULE ->
      (inject_Z start <= e)%Q ->
      (forall (mult' : Q) (start' : Z),
          In (mult', start') LR_SCHEDULE ->
          (inject_Z start' <= e)%Q -> start' <= start) ->
      (learning_rate_schedule FLAGS e
       == BASE_LEARNING_RATE * (inject_Z (train_batch_size FLAGS) / 256.0)
          * mult)%Q).
Proof.
  fold (scaled_lr FLAGS).
  assert (forall (e : Q) (mult : Q) (start : Z),
      In (mult, start) LR_SCHEDULE ->
      (inject_Z start <= e)%Q ->
      (forall (mult' : Q) (start' : Z),
          In (mult', start') LR_SCHEDULE ->
          (inject_Z start' <= e)%Q -> start' <= start) ->
      learning_rate_schedule FLAGS e = (scaled_lr FLAGS * mult)%Q) as Hlast.
  { intros e mult start Hin Hmet Hmax.
    unfold learning_rate_schedule. cbn [nth fst snd].
    unfold LR_SCHEDULE in Hin.
    cbn [In] in Hin.
    destruct Hin as [Hin|[Hin|[Hin|[Hin|[]]]]]; inversion Hin; subst; clear Hin.
    - apply (lr_decay_loop_last _ _ []); [exact Hmet|]. later_unmet Hmax.
    - apply (lr_decay_loop_last _ _ [_]); [exact Hmet|]. later_unmet Hmax.
    - apply (lr_decay_loop_last _ _ [_; _]); [exact Hmet|]. later_unmet Hmax.
    - apply (lr_decay_loop_last _ _ [_; _; _]); [exact Hmet|]. constructor. }
  split; [|split; [|split; [|split]]].
  - rewrite warmup_rate by lra. unfold inject_Z. field.
  - rewrite (Hlast 5%Q 1.0%Q 5); [reflexivity|cbn; tauto|unfold inject_Z; lra|].
    intros m' s' Hin Hle. cbn in Hin.
    destruct Hin as [Hin|[Hin|[Hin|[Hin|[]]]]]; inversion Hin; subst;
      unfold inject_Z in Hle; try lia; exfalso; lra.
  - intros e He.
    rewrite (Hlast e 0.001%Q 80); [reflexivity|cbn; tauto|unfold inject_Z; lra|].
    intros m' s' Hin _. cbn in Hin.
    destruct Hin as [Hin|[Hin|[Hin|[Hin|[]]]]]; inversion Hin; lia.
  - intros Hb e1 e2 H12 H25.
    rewrite !warmup_rate by lra.
    pose proof (scaled_lr_nonneg FLAGS Hb) as Hs.
    unfold inject_Z.
    assert (scaled_lr FLAGS * e1 <= scaled_lr FLAGS * e2)%Q as Hm.
    { rewrite !(Qmult_comm (scaled_lr FLAGS)). now apply Qmult_le_compat_r. }
    unfold Qdiv. cbn [Qinv Qnum Qden]. lra.
  - intros e mult start Hin Hmet Hmax.
    now rewrite (Hlast e mult start Hin Hmet Hmax).
Qed.

Lemma learning_rate_schedule_shape_witness :
  (learning_rate_schedule (default_flags "/model") 1
   <= learning_rate_schedule (default_flags "/model") 2)%Q /\
  (learning_rate_schedule (default_flags "/model") 45
   == BASE_LEARNING_RATE * (inject_Z 1024 / 256.0) * 0.1)%Q /\
  (learning_rate_schedule (default_flags "/model") 90
   == BASE_LEARNING_RATE * (inject_Z 1024 / 256.0) * 0.001)%Q.
Proof.
  destruct (learning_rate_schedule_shape (default_flags "/model"))
    as (_ & _ & Hend & Hmono & Hlast).
  split; [|split].
  - apply Hmono; [cbn; lia|lra|lra].
  - apply (Hlast 45%Q 0.1%Q 30).
    + cbn; tauto.
    + unfold inject_Z; lra.
    + intros m' s' Hin Hle. cbn in Hin.
      destruct Hin as [Hin|[Hin|[Hin|[Hin|[]]]]]; inversion Hin; subst;
        unfold inject_Z in Hle; try lia; exfalso; lra.
  - apply Hend. lra.
Defined.

(** ** get_custom_getter *)

Lemma bind_Ok {A : Type} (r : result A) : bind r Ok = r.
Proof. now destruct r. Qed.

(** A request for [bfloat16] creates the variable as [float32] and returns
    it under a cast to [float32]. *)
Lemma inner_custom_getter_bfloat16 getter args (kwargs : gmap string kwarg) :
  kwargs !! "dtype" = Some (DType bfloat16) ->
  inner_custom_getter getter args kwargs
  = bind (getter args (<["dtype" := DType float32]> kwargs))
         (fun var => Ok (Cast var float32)).
Proof.
  intros Hd. unfold inner_custom_getter, getitem. rewrite Hd. reflexivity.
Qed.

(** Any other request goes to the getter as it is, and the getter's
    variable is returned as it is. *)
Lemma inner_custom_getter_other getter args (kwargs : gmap string kwarg) v :
  kwargs !! "dtype" = Some v ->
  is_bfloat16 v = false ->
  inner_custom_getter getter args kwargs = getter args kwargs.
Proof.
  intros Hd Hv. unfold inner_custom_getter, getitem. rewrite Hd. cbn [bind].
  rewrite Hv. apply bind_Ok.
Qed.

(** C4.  For a request of dtype [bfloat16] the getter creates the variable
    as [float32], and what it returns is that variable cast to [float32]:
    the dtype of the returned value is [float32], not [bfloat16]. *)
Theorem inner_custom_getter_bfloat16_request :
  let request : gmap string kwarg := {["dtype" := DType bfloat16]} in
  let created := TfVariable [PyObj "kernel"] {["dtype" := DType float32]} in
  inner_custom_getter true_getter [PyObj "kernel"] request
  = Ok (Cast created float32) /\
  dtype_of created = Some float32 /\
  dtype_of (Cast created float32) = Some float32 /\
  Cast created float32 <> Cast created bfloat16.
Proof.
  split; [|split; [|split]].
  - vm_compute. reflexivity.
  - reflexivity.
  - reflexivity.
  - discriminate.
Qed.

(** ** resnet_model_fn *)

(** [contains] is the substring test. *)
Lemma prefix_app (needle rest : string) :
  String.prefix needle (needle +:+ rest) = true.
Proof.
  induction needle as [|a needle IH].
  - now destruct rest.
  - change (String.prefix (String a needle) (String a (needle +:+ rest))
            = true).
    cbn [String.prefix]. destruct (ascii_dec a a); [exact IH|congruence].
Qed.

Lemma prefix_split (needle hay : string) :
  String.prefix needle hay = true -> exists rest, hay = needle +:+ rest.
Proof.
  revert hay. induction needle as [|a needle IH]; intros hay H.
  - exists hay. reflexivity.
  - destruct hay as [|b hay]; cbn [String.prefix] in H; [discriminate|].
    destruct (ascii_dec a b) as [->|]; [|discriminate].
    destruct (IH hay H) as [rest ->]. exists rest. reflexivity.
Qed.

Lemma contains_spec (needle hay : string) :
  contains needle hay = true <->
  exists before after, hay = before +:+ needle +:+ after.
Proof.
  split.
  - induction hay as [|a hay IH]; cbn [contains];
      destruct (String.prefix needle _) eqn:Hp.
    + intros _. destruct (prefix_split _ _ Hp) as [rest Hrest].
      exists "", rest. exact Hrest.
    + discriminate.
    + intros _. destruct (prefix_split _ _ Hp) as [rest Hrest].
      exists "", rest. exact Hrest.
    + intros H. destruct (IH H) as (before & after & ->).
      exists (String a before), after. reflexivity.
  - intros (before & after & ->).
    induction before as [|a before IH].
    + change ("" +:+ needle +:+ after) with (needle +:+ after).
      destruct (needle +:+ after) eqn:E; cbn [contains];
        rewrite <- E, prefix_app; reflexivity.
    + change (String a before +:+ needle +:+ after)
        with (String a (before +:+ needle +:+ after)).
      cbn [contains].
      destruct (String.prefix needle _); [reflexivity|exact IH].
Qed.

Lemma of_normalization_layer_contains (v : variable) :
  of_normalization_layer v <->
  contains "batch_normalization" (name v) = true.
Proof. unfold of_normalization_layer. now rewrite contains_spec. Qed.

Lemma ordinary_contains (v : variable) :
  ~ of_normalization_layer v <->
  contains "batch_normalization" (name v) = false.
Proof.
  rewrite of_normalization_layer_contains. now rewrite not_true_iff_false.
Qed.

Lemma weight_decay_term_eq (g : graph) :
  weight_decay_term g
  = bind (add_n (map l2_loss (decayed (trainable_variables g))))
         (fun s => Ok (WEIGHT_DECAY * s)%Q).
Proof. reflexivity. Qed.

Lemma decayed_app (l1 l2 : list variable) :
  decayed (l1 ++ l2) = decayed l1 ++ decayed l2.
Proof. unfold decayed. apply List.filter_app. Qed.

Lemma decayed_In (vars : list variable) (v : variable) :
  In v (decayed vars) <-> In v vars /\ ~ of_normalization_layer v.
Proof.
  unfold decayed. rewrite List.filter_In, ordinary_contains.
  now rewrite negb_true_iff.
Qed.

Lemma decayed_of_normalization (vars : list variable) :
  Forall of_normalization_layer vars -> decayed vars = [].
Proof.
  unfold decayed. induction 1 as [|v vars Hv _ IH]; [reflexivity|].
  apply of_normalization_layer_contains in Hv.
  cbn [List.filter]. now rewrite Hv.
Qed.

Lemma l2_loss_value (v v' : variable) : value v = value v' -> l2_loss v = l2_loss v'.
Proof. unfold l2_loss. now intros ->. Qed.

Lemma decayed_losses_same (vars vars' : list variable) :
  same_but_normalization vars vars' ->
  map l2_loss (decayed vars) = map l2_loss (decayed vars').
Proof.
  induction 1 as [|v v' vars vars' [Hname Hval] _ IH]; [reflexivity|].
  unfold decayed in *. cbn [List.filter]. rewrite <- Hname.
  destruct (contains "batch_normalization" (name v)) eqn:E; cbn [negb].
  - exact IH.
  - apply ordinary_contains in E.
    cbn [map]. rewrite IH, (l2_loss_value v v' (Hval E)). reflexivity.
Qed.

(** The loss of a specification that is not a prediction is the cross
    entropy of the logits behind the predictions, plus the weight decay. *)
Lemma resnet_model_fn_loss FLAGS g features labels mode params spec :
  mode <> ModeKeys.PREDICT ->
  resnet_model_fn FLAGS g features labels mode params = Ok spec ->
  exists logits decay,
    weight_decay_term g = Ok decay /\
    predictions spec
    = [("classes", Argmax logits 1); ("probabilities", Softmax logits)] /\
    loss spec
    = Some (Add (SoftmaxCrossEntropy logits (OneHot labels LABEL_CLASSES))
                (Scalar decay)).
Proof.
  intros Hmode. apply String.eqb_neq in Hmode.
  unfold resnet_model_fn.
  destruct (match features with
            | FeatureDict d => getitem d "feature"
            | FeatureTensor t => Ok t
            end) as [t|]; cbn [bind]; [|discriminate].
  rewrite Hmode.
  destruct (getitem params "batch_size"); cbn [bind]; [|discriminate].
  destruct (weight_decay_term g) as [decay|]; cbn [bind]; [|discriminate].
  destruct (String.eqb mode ModeKeys.TRAIN).
  - destruct (truediv _ _); cbn [bind]; [|discriminate].
    intros [= <-]. cbn [loss predictions]. eauto.
  - cbn [bind]. intros [= <-]. cbn [loss predictions]. eauto.
Qed.

Lemma decayed_ordinary (v : variable) (vars : list variable) :
  contains "batch_normalization" (name v) = false ->
  decayed (v :: vars) = v :: decayed vars.
Proof. intros H. unfold decayed. cbn [List.filter]. now rewrite H. Qed.

Lemma weight_decay_term_value (g : graph) (p : Q) :
  weight_decay_term g = Ok p ->
  p = (WEIGHT_DECAY * sum_l2_loss (decayed (trainable_variables g)))%Q.
Proof.
  rewrite weight_decay_term_eq.
  destruct (map l2_loss (decayed (trainable_variables g))) eqn:E;
    cbn [add_n bind]; [discriminate|].
  intros [= <-]. unfold sum_l2_loss. now rewrite E.
Qed.

(** The weight decay of a graph whose only variable outside the
    normalization layers is [w]. *)
Lemma weight_decay_term_single (g : graph) before w after :
  trainable_variables g = (before ++ w :: after)%list ->
  Forall of_normalization_layer (before ++ after) ->
  ~ of_normalization_layer w ->
  weight_decay_term g = Ok (WEIGHT_DECAY * (l2_loss w + 0))%Q.
Proof.
  intros Hvars Hrest Hw. apply Forall_app in Hrest as [Hbefore Hafter].
  apply ordinary_contains in Hw.
  rewrite weight_decay_term_eq, Hvars, decayed_app.
  rewrite (decayed_ordinary _ _ Hw).
  rewrite (decayed_of_normalization _ Hbefore).
  rewrite (decayed_of_normalization _ Hafter).
  reflexivity.
Qed.

Lemma square_nonneg (x : Q) : (0 <= x * x)%Q.
Proof.
  destruct (Qlt_le_dec x 0) as [Hneg|Hpos].
  - assert (0 <= (- x) * (- x))%Q as H
        by (apply Qmult_le_0_compat; lra).
    assert ((- x) * (- x) == x * x)%Q as Heq by ring.
    now rewrite Heq in H.
  - now apply Qmult_le_0_compat.
Qed.

Lemma sum_squares_nonneg (xs : list Q) :
  (0 <= fold_right (fun x acc => x * x + acc) 0 xs)%Q.
Proof.
  induction xs as [|x xs IH]; cbn [fold_right]; [lra|].
  pose proof (square_nonneg x) as Hx. lra.
Qed.

Lemma sum_squares_zero (xs : list Q) :
  (fold_right (fun x acc => x * x + acc) 0 xs == 0)%Q <->
  Forall (fun x => x == 0)%Q xs.
Proof.
  induction xs as [|x xs IH]; cbn [fold_right].
  - split; [constructor|reflexivity].
  - pose proof (sum_squares_nonneg xs) as Hxs.
    pose proof (square_nonneg x) as Hx. split.
    + intros H.
      assert (x * x == 0)%Q as Hxx by lra.
      assert (fold_right (fun x acc => x * x + acc) 0 xs == 0)%Q as Hrest
          by lra.
      constructor; [|now apply IH].
      destruct (Qmult_integral _ _ Hxx); assumption.
    + intros H. inversion H as [|? ? Hx0 Hrest]; subst.
      apply IH in Hrest. rewrite Hrest, Hx0. ring.
Qed.

Lemma l2_loss_nonneg (v : variable) : (0 <= l2_loss v)%Q.
Proof.
  unfold l2_loss. pose proof (sum_squares_nonneg (value v)).
  unfold Qdiv. cbn [Qinv Qnum Qden]. lra.
Qed.

Lemma l2_loss_zero (v : variable) :
  (l2_loss v == 0)%Q <-> Forall (fun x => x == 0)%Q (value v).
Proof.
  rewrite <- sum_squares_zero. unfold l2_loss.
  unfold Qdiv. cbn [Qinv Qnum Qden]. split; intros H; lra.
Qed.

(** [tf.nn.l2_loss] is half the squared L2 norm. *)
Lemma l2_loss_half_squared_norm (v : variable) :
  (l2_loss v == half_squared_norm v)%Q.
Proof.
  unfold l2_loss, half_squared_norm, sum_of_squares.
  assert (fold_right (fun x acc => x * x + acc) 0 (value v)
          == fold_right Qplus 0 (map (fun x => x * x) (value v)))%Q as ->.
  { induction (value v) as [|x xs IH]; cbn [map fold_right]; [reflexivity|].
    now rewrite IH. }
  reflexivity.
Qed.

Lemma sum_l2_loss_total (vars : list variable) :
  (sum_l2_loss vars == total half_squared_norm vars)%Q.
Proof.
  unfold sum_l2_loss, total.
  induction vars as [|v vars IH]; cbn [map fold_right]; [reflexivity|].
  now rewrite IH, l2_loss_half_squared_norm.
Qed.

(** C5 (amended).  The term added to the cross entropy of the logits is
    [WEIGHT_DECAY] times the sum of [tf.nn.l2_loss], half the squared L2
    norm, over exactly the trainable variables that belong to no
    normalization layer.  Hence it does not change when only parameters of normalization
    layers change; and in a model whose other parameters all belong to
    normalization layers it depends on the ordinary weight: whatever the
    weight holds, another value of it gives another term. *)
Theorem weight_decay_excludes_normalization :
  (forall FLAGS g features labels mode params spec,
      mode <> ModeKeys.PREDICT ->
      resnet_model_fn FLAGS g features labels mode params = Ok spec ->
      exists logits penalty,
        predictions spec
        = [("classes", Argmax logits 1); ("probabilities", Softmax logits)] /\
        loss spec
        = Some (Add (SoftmaxCrossEntropy logits (OneHot labels LABEL_CLASSES))
                    (Scalar penalty)) /\
        weight_decay_term g = Ok penalty /\
        (penalty
         == WEIGHT_DECAY
            * total half_squared_norm (decayed (trainable_variables g)))%Q)
  /\
  (forall vars v,
      In v (decayed vars) <-> In v vars /\ ~ of_normalization_layer v)
  /\
  (forall g g',
      same_but_normalization (trainable_variables g) (trainable_variables g') ->
      weight_decay_term g' = weight_decay_term g)
  /\
  (forall g before w after,
      trainable_variables g = (before ++ w :: after)%list ->
      Forall of_normalization_layer (before ++ after) ->
      ~ of_normalization_layer w ->
      value w <> [] ->
      exists w' p p',
        name w' = name w /\
        length (value w') = length (value w) /\
        weight_decay_term g = Ok p /\
        weight_decay_term
          (with_trainable_variables (before ++ w' :: after) g) = Ok p' /\
        ~ (p' == p)%Q).
Proof.
  split; [|split; [|split]].
  - intros FLAGS g features labels mode params spec Hmode Hrun.
    destruct (resnet_model_fn_loss _ _ _ _ _ _ _ Hmode Hrun)
      as (logits & decay & Hdecay & Hpredictions & Hloss).
    exists logits, decay. split; [exact Hpredictions|].
    split; [exact Hloss|]. split; [exact Hdecay|].
    rewrite (weight_decay_term_value g decay Hdecay).
    now rewrite sum_l2_loss_total.
  - exact decayed_In.
  - intros g g' Hsame. rewrite !weight_decay_term_eq.
    now rewrite (decayed_losses_same _ _ Hsame).
  - intros g before w after Hg Hrest Hw Hvalue.
    destruct (value w) as [|x xs] eqn:Hxs; [congruence|].
    pose proof (l2_loss_nonneg w) as Hnonneg.
    assert (Forall (fun x => x == 0)%Q (repeat 0%Q (length xs))) as Hzeros.
    { induction (length xs); cbn [repeat]; constructor;
        [reflexivity|assumption]. }
    destruct (Qeq_dec (l2_loss w) 0) as [Hzero|Hpositive].
    + set (w' := {| name := name w;
                    value := 1%Q :: repeat 0%Q (length xs) |}).
      assert (~ of_normalization_layer w') as Hw' by exact Hw.
      exists w'. eexists _, _.
      split; [reflexivity|].
      split; [unfold w'; cbn [value length]; now rewrite repeat_length|].
      split; [exact (weight_decay_term_single g before w after Hg Hrest Hw)|].
      split; [exact (weight_decay_term_single
                       (with_trainable_variables (before ++ w' :: after) g)
                       before w' after eq_refl Hrest Hw')|].
      assert (l2_loss w' == 1 # 2)%Q as Hhalf.
      { unfold l2_loss, w'. cbn [value fold_right].
        pose proof (proj2 (sum_squares_zero _) Hzeros) as Hsum.
        unfold Qdiv. cbn [Qinv Qnum Qden]. lra. }
      rewrite Hhalf, Hzero. discriminate.
    + set (w' := {| name := name w;
                    value := 0%Q :: repeat 0%Q (length xs) |}).
      assert (~ of_normalization_layer w') as Hw' by exact Hw.
      exists w'. eexists _, _.
      split; [reflexivity|].
      split; [unfold w'; cbn [value length]; now rewrite repeat_length|].
      split; [exact (weight_decay_term_single g before w after Hg Hrest Hw)|].
      split; [exact (weight_decay_term_single
                       (with_trainable_variables (before ++ w' :: after) g)
                       before w' after eq_refl Hrest Hw')|].
      assert (l2_loss w' == 0)%Q as Hnone.
      { apply l2_loss_zero. unfold w'. cbn [value]. constructor;
          [reflexivity|exact Hzeros]. }
      rewrite Hnone. change WEIGHT_DECAY with (1 # 10000)%Q.
      intros H. apply Hpositive. lra.
Qed.

Lemma small_graph_kernel_ordinary (kernel : list Q) :
  ~ of_normalization_layer {| name := "cg/conv2d/kernel:0"; value := kernel |}.
Proof. apply ordinary_contains. reflexivity. Qed.

Lemma small_graph_gamma_of_normalization (gamma : list Q) :
  of_normalization_layer
    {| name := "cg/batch_normalization/gamma:0"; value := gamma |}.
Proof. exists "cg/", "/gamma:0". reflexivity. Qed.

Lemma weight_decay_excludes_normalization_witness :
  (exists spec logits penalty,
      resnet_model_fn (default_flags "/model") (small_graph [1; 2] [1])%Q
        (FeatureTensor (Placeholder "images")) (Placeholder "labels")
        ModeKeys.EVAL {["batch_size" := 1024]}
      = Ok spec /\
      loss spec
      = Some (Add (SoftmaxCrossEntropy logits
                     (OneHot (Placeholder "labels") LABEL_CLASSES))
                  (Scalar penalty)) /\
      (penalty == WEIGHT_DECAY * 2.5)%Q) /\
  weight_decay_term (small_graph [1; 2] [7])%Q
  = weight_decay_term (small_graph [1; 2] [1])%Q /\
  exists (w' : variable) (p p' : Q),
    length (value w') = 2%nat /\
    weight_decay_term (small_graph [1; 2] [1])%Q = Ok p /\
    weight_decay_term
      (with_trainable_variables
         [ w'; {| name := "cg/batch_normalization/gamma:0"; value := [1%Q] |} ]
         (small_graph [1; 2] [1])%Q)
    = Ok p' /\
    ~ (p' == p)%Q.
Proof.
  destruct weight_decay_excludes_normalization
    as (Hloss & _ & Hsame & Hchange).
  split; [|split].
  - destruct (resnet_model_fn (default_flags "/model")
                (small_graph [1; 2] [1])%Q
                (FeatureTensor (Placeholder "images")) (Placeholder "labels")
                ModeKeys.EVAL {["batch_size" := 1024]}) as [spec|e] eqn:Hrun.
    + assert (ModeKeys.EVAL <> ModeKeys.PREDICT) as Hmode by discriminate.
      destruct (Hloss _ _ _ _ _ _ spec Hmode Hrun)
        as (logits & penalty & _ & Hspec & _ & Hpenalty).
      exists spec, logits, penalty. split; [reflexivity|].
      split; [exact Hspec|]. rewrite Hpenalty. reflexivity.
    + exfalso. vm_compute in Hrun. discriminate.
  - apply Hsame. repeat constructor. cbn [name value]. intros H.
    exfalso. apply H. apply small_graph_gamma_of_normalization.
  - destruct (Hchange (small_graph [1; 2] [1])%Q []
                {| name := "cg/conv2d/kernel:0"; value := [1; 2]%Q |}
                [ {| name := "cg/batch_normalization/gamma:0";
                     value := [1%Q] |} ])
      as (w' & p & p' & _ & Hlength & Hp & Hp' & Hne).
    + reflexivity.
    + repeat constructor. apply small_graph_gamma_of_normalization.
    + apply small_graph_kernel_ordinary.
    + discriminate.
    + exists w', p, p'. repeat split; assumption.
Defined.

(** C5 as stated fails: the L2 norm of the kernel [[3; 4]] is 5, and the
    term added to the cross entropy is [WEIGHT_DECAY] times 12.5, half the
    squared norm, not [WEIGHT_DECAY] times 5. *)
Lemma weight_decay_is_not_sum_of_norms :
  ~ of_normalization_layer
      {| name := "cg/conv2d/kernel:0"; value := [3; 4]%Q |} /\
  of_normalization_layer
    {| name := "cg/batch_normalization/gamma:0"; value := [1%Q] |} /\
  L2_norm_is {| name := "cg/conv2d/kernel:0"; value := [3; 4]%Q |} 5 /\
  exists spec cross_entropy penalty,
    resnet_model_fn (default_flags "/model") (small_graph [3; 4] [1])%Q
      (FeatureTensor (Placeholder "images")) (Placeholder "labels")
      ModeKeys.EVAL {["batch_size" := 1024]}
    = Ok spec /\
    loss spec = Some (Add cross_entropy (Scalar penalty)) /\
    (penalty == WEIGHT_DECAY * 12.5)%Q /\
    ~ (penalty == WEIGHT_DECAY * 5)%Q.
Proof.
  split; [apply small_graph_kernel_ordinary|].
  split; [apply small_graph_gamma_of_normalization|].
  split; [split; [discriminate|reflexivity]|].
  eexists _, _, _. split; [vm_compute; reflexivity|].
  split; [reflexivity|]. split; [reflexivity|discriminate].
Qed.

(** C6 (amended).  The model function does not inspect the mode beyond
    comparing it with [PREDICT] and [TRAIN]: for any other mode, valid
    or not, it does what it does for [EVAL] and returns the specification
    of [EVAL] under the mode it was given. *)
Theorem resnet_model_fn_other_mode FLAGS g features labels mode params :
  mode <> ModeKeys.TRAIN ->
  mode <> ModeKeys.PREDICT ->
  resnet_model_fn FLAGS g features labels mode params
  = bind (resnet_model_fn FLAGS g features labels ModeKeys.EVAL params)
         (fun spec => Ok (with_mode mode spec)).
Proof.
  intros Htrain Hpredict.
  apply String.eqb_neq in Htrain. apply String.eqb_neq in Hpredict.
  unfold resnet_model_fn. rewrite Htrain, Hpredict.
  change (String.eqb ModeKeys.EVAL ModeKeys.TRAIN) with false.
  change (String.eqb ModeKeys.EVAL ModeKeys.PREDICT) with false.
  cbv iota.
  destruct (match features with
            | FeatureDict d => getitem d "feature"
            | FeatureTensor t => Ok t
            end) as [t|]; cbn [bind]; [|reflexivity].
  destruct (getitem params "batch_size"); cbn [bind]; [|reflexivity].
  destruct (weight_decay_term g); cbn [bind]; reflexivity.
Qed.

Lemma resnet_model_fn_other_mode_witness :
  resnet_model_fn (default_flags "/model") (small_graph [1; 2] [1])%Q
    (FeatureTensor (Placeholder "images")) (Placeholder "labels")
    "validate" {["batch_size" := 1024]}
  = bind (resnet_model_fn (default_flags "/model") (small_graph [1; 2] [1])%Q
            (FeatureTensor (Placeholder "images")) (Placeholder "labels")
            ModeKeys.EVAL {["batch_size" := 1024]})
         (fun spec => Ok (with_mode "validate" spec)).
Proof.
  apply resnet_model_fn_other_mode; discriminate.
Defined.

(** C6 as stated fails: a mode outside [TRAIN], [EVAL], [PREDICT] is
    accepted and a specification is returned. *)
Lemma malformed_mode_returns :
  ~ In "validate" [ModeKeys.TRAIN; ModeKeys.EVAL; ModeKeys.PREDICT] /\
  exists spec,
    resnet_model_fn (default_flags "/model") (small_graph [1; 2] [1])%Q
      (FeatureTensor (Placeholder "images")) (Placeholder "labels")
      "validate" {["batch_size" := 1024]}
    = Ok spec /\
    spec_mode spec = "validate" /\ train_op spec = None.
Proof.
  split.
  - cbn. intros [H|[H|[H|[]]]]; discriminate.
  - eexists. split; [vm_compute; reflexivity|]. split; reflexivity.
Qed.

(** ** The driver: what each step does to the world *)

Lemma train_phase_run FLAGS bpe e w :
  train_phase FLAGS bpe e w
  = (Ok (e + 1),
     {| checkpoint :=
          <[model_dir FLAGS :=
              Z.max (default 0 (checkpoint w !! model_dir FLAGS))
                    ((e + 1) * bpe)]> (checkpoint w);
        files := files w;
        calls := calls w ++ [Train ((e + 1) * bpe)];
        clock_reads := clock_reads w |}).
Proof. reflexivity. Qed.

Lemma eval_phase_run FLAGS rt t0 e w accuracy :
  eval_batch_size FLAGS <> 0 ->
  evaluate_metrics rt
    {| checkpoint := checkpoint w;
       files := files w;
       calls := calls w ++ [Evaluate (NUM_EVAL_IMAGES / eval_batch_size FLAGS)];
       clock_reads := S (S (clock_reads w)) |} !! "accuracy"
  = Some accuracy ->
  eval_phase FLAGS rt t0 e w
  = (Ok [IntCell e;
         FloatCell
           (inject_Z (int (clock rt (S (S (clock_reads w))) - t0)) / 3600.0)%Q;
         StrCell (format_2f (accuracy * 100)%Q);
         StrCell (format_2f (accuracy * 100)%Q)],
     {| checkpoint := checkpoint w;
        files := files w;
        calls := calls w ++ [Evaluate (NUM_EVAL_IMAGES / eval_batch_size FLAGS)];
        clock_reads := S (S (S (clock_reads w))) |}).
Proof.
  intros Hebs Hacc. apply Z.eqb_neq in Hebs.
  unfold eval_phase, mbind, time_time, lift, floordiv, estimator_evaluate,
    record_call, getitem, ret, mbind.
  cbn [checkpoint files calls clock_reads]. rewrite Hebs.
  cbn [checkpoint files calls clock_reads]. rewrite Hacc. reflexivity.
Qed.

Lemma seqZ_step (m : Z) : m < 100 -> seqZ m (100 - m) = m :: seqZ (m + 1) (100 - (m + 1)).
Proof.
  intros H. rewrite seqZ_cons by lia. f_equal. f_equal; lia.
Qed.

Lemma loop_calls_step FLAGS bpe e :
  e < 100 ->
  loop_calls FLAGS bpe e
  = Train ((e + 1) * bpe) :: Evaluate (NUM_EVAL_IMAGES / eval_batch_size FLAGS)
    :: loop_calls FLAGS bpe (e + 1).
Proof.
  intros H. unfold loop_calls. now rewrite seqZ_step.
Qed.

Lemma loop_calls_done FLAGS bpe e : 100 <= e -> loop_calls FLAGS bpe e = [].
Proof.
  intros H. unfold loop_calls. now rewrite seqZ_nil by lia.
Qed.

(** The loop when every evaluation can be made and reports an accuracy. *)
Lemma epoch_loop_run FLAGS rt t0 bpe :
  eval_batch_size FLAGS <> 0 ->
  (forall w, is_Some (evaluate_metrics rt w !! "accuracy")) ->
  forall fuel e results w,
    100 - e <= Z.of_nat fuel ->
    exists rows w',
      epoch_loop fuel FLAGS rt t0 bpe e results w
      = (Ok (Some (results ++ rows)), w') /\
      calls w' = calls w ++ loop_calls FLAGS bpe e /\
      files w' = files w /\
      Forall2 (reports rt) (seqZ (e + 1) (100 - e)) rows.
Proof.
  intros Hebs Hacc. induction fuel as [|fuel IH]; intros e results w Hfuel.
  - assert ((e <? 100) = false) as Hge by lia.
    cbn [epoch_loop]. rewrite Hge. exists nil, w.
    rewrite loop_calls_done, seqZ_nil, !app_nil_r by lia.
    repeat split. constructor.
  - cbn [epoch_loop]. destruct (e <? 100) eqn:Hlt.
    + apply Z.ltb_lt in Hlt.
      unfold mbind at 1. rewrite train_phase_run.
      set (w1 := {| checkpoint := _ |}).
      destruct (Hacc {| checkpoint := checkpoint w1;
                        files := files w1;
                        calls := calls w1
                                 ++ [Evaluate (NUM_EVAL_IMAGES
                                               / eval_batch_size FLAGS)];
                        clock_reads := S (S (clock_reads w1)) |})
        as [accuracy Haccuracy].
      unfold mbind at 1.
      rewrite (eval_phase_run FLAGS rt t0 (e + 1) w1 accuracy Hebs Haccuracy).
      set (row := [IntCell (e + 1); _; _; _]).
      set (w2 := {| checkpoint := checkpoint w1 |}).
      assert (100 - (e + 1) <= Z.of_nat fuel) as Hfuel' by lia.
      destruct (IH (e + 1) (results ++ [row]) w2 Hfuel')
        as (rows & w' & Hrun & Hcalls & Hfiles & Hrows).
      exists (row :: rows), w'. rewrite Hrun.
      split; [now rewrite <- app_assoc|].
      split; [|split].
      * rewrite Hcalls, (loop_calls_step _ _ _ Hlt). subst w2 w1.
        cbn [calls]. now rewrite <- !app_assoc.
      * rewrite Hfiles. reflexivity.
      * rewrite seqZ_cons by lia. constructor.
        -- eexists _, accuracy, _. split; [exact Haccuracy|reflexivity].
        -- replace (Z.succ (e + 1)) with (e + 1 + 1) by lia.
           replace (Z.pred (100 - e)) with (100 - (e + 1)) by lia.
           exact Hrows.
    + apply Z.ltb_ge in Hlt. exists nil, w.
      rewrite loop_calls_done, seqZ_nil, !app_nil_r by lia.
      repeat split. constructor.
Qed.

Lemma startup_run FLAGS rt w :
  train_batch_size FLAGS <> 0 ->
  startup FLAGS rt w
  = (Ok (clock rt (clock_reads w),
         default 0 (checkpoint w !! model_dir FLAGS) / train_batch_size FLAGS,
         NUM_TRAIN_IMAGES / train_batch_size FLAGS),
     {| checkpoint := checkpoint w;
        files := files w;
        calls := calls w;
        clock_reads := S (clock_reads w) |}).
Proof.
  intros Htbs. apply Z.eqb_neq in Htbs.
  unfold startup, mbind, load_global_step_from_checkpoint_dir, time_time, lift,
    floordiv, ret.
  rewrite Htbs. reflexivity.
Qed.

(** A run of [main] in which nothing fails. *)
Lemma main_run FLAGS rt w url :
  tpu_grpc_url FLAGS rt = Ok url ->
  train_batch_size FLAGS <> 0 ->
  eval_batch_size FLAGS <> 0 ->
  (forall w, is_Some (evaluate_metrics rt w !! "accuracy")) ->
  let current_epoch :=
    default 0 (checkpoint w !! model_dir FLAGS) / train_batch_size FLAGS in
  let batches_per_epoch := NUM_TRAIN_IMAGES / train_batch_size FLAGS in
  exists rows w',
    main FLAGS rt w = (Ok (Some tt), w') /\
    calls w'
    = calls w ++ loop_calls FLAGS batches_per_epoch current_epoch
      ++ [WriteFile (report_path FLAGS)
                    (writerow rt header +:+ writerows rt rows)] /\
    files w'
    = <[report_path FLAGS := writerow rt header +:+ writerows rt rows]>
        (files w) /\
    Forall2 (reports rt) (seqZ (current_epoch + 1) (100 - current_epoch)) rows.
Proof.
  intros Hurl Htbs Hebs Hacc e0 bpe.
  unfold main. rewrite Hurl. unfold lift at 1, mbind at 1.
  unfold mbind at 1. rewrite (startup_run FLAGS rt w Htbs).
  fold e0 bpe. set (w1 := {| checkpoint := checkpoint w |}).
  assert (100 - e0 <= Z.of_nat (Z.to_nat (100 - e0))) as Hfuel by lia.
  destruct (epoch_loop_run FLAGS rt (clock rt (clock_reads w)) bpe
              Hebs Hacc _ e0 [] w1 Hfuel)
    as (rows & w2 & Hrun & Hcalls & Hfiles & Hrows).
  exists rows.
  unfold mbind at 1. rewrite Hrun. cbn [app].
  unfold write_file, record_call, mbind, ret.
  eexists. split; [reflexivity|].
  cbn [calls files]. rewrite Hcalls, Hfiles. subst w1. cbn [calls files].
  split; [now rewrite <- app_assoc|]. split; [reflexivity|exact Hrows].
Qed.

(** ** The driver: calls made in any run, failing or not *)

Section Appends.
Context (P : event -> Prop).

Lemma appends_ret {A} (a : A) : appends P (ret a).
Proof. intros w. exists []. now rewrite app_nil_r. Qed.

Lemma appends_lift {A} (r : result A) : appends P (lift r).
Proof. intros w. exists []. now rewrite app_nil_r. Qed.

Lemma appends_time rt : appends P (time_time rt).
Proof. intros w. exists []. cbn. now rewrite app_nil_r. Qed.

Lemma appends_load dir : appends P (load_global_step_from_checkpoint_dir dir).
Proof. intros w. exists []. cbn. now rewrite app_nil_r. Qed.

Lemma appends_bind {A B} (m : M A) (k : A -> M B) :
  appends P m -> (forall a, appends P (k a)) -> appends P (mbind m k).
Proof.
  intros Hm Hk w. unfold mbind.
  destruct (Hm w) as (tr1 & Hc1 & Hp1).
  destruct (m w) as [[a|e] w1]; cbn [snd] in *.
  - destruct (Hk a w1) as (tr2 & Hc2 & Hp2).
    exists (tr1 ++ tr2). rewrite Hc2, Hc1, <- app_assoc.
    split; [reflexivity|]. now apply Forall_app.
  - exists tr1. now split.
Qed.

(** The continuation of a pure step only runs on what the step
    returned. *)
Lemma appends_bind_lift {A B} (r : result A) (k : A -> M B) :
  (forall a, r = Ok a -> appends P (k a)) -> appends P (mbind (lift r) k).
Proof.
  intros Hk w. unfold mbind, lift. destruct r as [a|e].
  - exact (Hk a eq_refl w).
  - exists []. now rewrite app_nil_r.
Qed.

Lemma appends_record ev : P ev -> appends P (record_call ev).
Proof. intros Hev w. exists [ev]. split; [reflexivity|]. now repeat constructor. Qed.

Lemma appends_train dir s : P (Train s) -> appends P (estimator_train dir s).
Proof.
  intros Hev. apply appends_bind; [now apply appends_record|].
  intros _ w. exists []. cbn. now rewrite app_nil_r.
Qed.

Lemma appends_evaluate rt s :
  P (Evaluate s) -> appends P (estimator_evaluate rt s).
Proof.
  intros Hev. apply appends_bind; [now apply appends_record|].
  intros _ w. exists []. cbn. now rewrite app_nil_r.
Qed.

Lemma appends_write path content :
  P (WriteFile path content) -> appends P (write_file path content).
Proof.
  intros Hev. apply appends_bind; [now apply appends_record|].
  intros _ w. exists []. cbn. now rewrite app_nil_r.
Qed.
End Appends.

Lemma appends_eval_phase FLAGS rt t0 e :
  appends (evaluates_truncated FLAGS) (eval_phase FLAGS rt t0 e).
Proof.
  unfold eval_phase.
  apply appends_bind; [apply appends_time|]. intros ?.
  apply appends_bind; [apply appends_time|]. intros ?.
  apply appends_bind_lift. intros steps Hsteps.
  unfold floordiv in Hsteps.
  destruct (eval_batch_size FLAGS =? 0); [discriminate|].
  injection Hsteps as <-.
  apply appends_bind; [now apply appends_evaluate|]. intros metrics.
  apply appends_bind; [apply appends_time|]. intros ?.
  apply appends_bind; [apply appends_lift|]. intros ?.
  apply appends_bind; [apply appends_lift|]. intros ?.
  apply appends_ret.
Qed.

Lemma appends_epoch_loop FLAGS rt t0 bpe fuel :
  forall e results,
    appends (evaluates_truncated FLAGS)
            (epoch_loop fuel FLAGS rt t0 bpe e results).
Proof.
  induction fuel as [|fuel IH]; intros e results; cbn [epoch_loop];
    destruct (e <? 100); try apply appends_ret.
  apply appends_bind.
  - unfold train_phase. apply appends_bind; [|intros; apply appends_ret].
    now apply appends_train.
  - intros e'. apply appends_bind; [apply appends_eval_phase|].
    intros row. apply IH.
Qed.

Lemma appends_main FLAGS rt :
  appends (evaluates_truncated FLAGS) (main FLAGS rt).
Proof.
  unfold main.
  apply appends_bind; [apply appends_lift|]. intros ?.
  apply appends_bind.
  { unfold startup.
    apply appends_bind; [apply appends_load|]. intros ?.
    apply appends_bind; [apply appends_time|]. intros ?.
    apply appends_bind; [apply appends_lift|]. intros ?.
    apply appends_bind; [apply appends_lift|]. intros ?.
    apply appends_ret. }
  intros [[t0 e] bpe].
  apply appends_bind; [apply appends_epoch_loop|].
  intros [results|]; [|apply appends_ret].
  apply appends_bind; [|intros; apply appends_ret].
  now apply appends_write.
Qed.

(** ** The driver: the loop ends within the iterations [main] allows *)

Lemma epoch_loop_fuel FLAGS rt t0 bpe fuel :
  forall e results w,
    100 - e <= Z.of_nat fuel ->
    fst (epoch_loop fuel FLAGS rt t0 bpe e results w) <> Ok None.
Proof.
  induction fuel as [|fuel IH]; intros e results w Hfuel; cbn [epoch_loop].
  - assert ((e <? 100) = false) as -> by lia. discriminate.
  - destruct (e <? 100) eqn:Hlt; [|discriminate].
    apply Z.ltb_lt in Hlt.
    unfold mbind at 1. rewrite train_phase_run.
    unfold mbind at 1.
    destruct (eval_phase FLAGS rt t0 (e + 1) _) as [[row|err] w2];
      [|discriminate].
    apply IH. lia.
Qed.

Lemma main_total FLAGS rt w : fst (main FLAGS rt w) <> Ok None.
Proof.
  unfold main, mbind at 1, lift at 1.
  destruct (tpu_grpc_url FLAGS rt); [|discriminate].
  unfold mbind at 1.
  destruct (startup FLAGS rt w) as [[[[t0 e] bpe]|err] w1]; [|discriminate].
  unfold mbind at 1.
  pose proof (epoch_loop_fuel FLAGS rt t0 bpe (Z.to_nat (100 - e)) e [] w1)
    as Hfuel.
  destruct (epoch_loop _ FLAGS rt t0 bpe e [] w1) as [[[rows|]|err] w2];
    cbn [fst] in *.
  - discriminate.
  - exfalso. apply Hfuel; [lia|reflexivity].
  - discriminate.
Qed.

(** ** Formatting *)

Lemma round_half_even_comp (x y : Q) :
  (x == y)%Q -> round_half_even x = round_half_even y.
Proof.
  intros H. unfold round_half_even.
  assert (Qfloor x = Qfloor y) as Hf by (now apply Qfloor_comp).
  assert (Qfloor (2 * x) = Qfloor (2 * y)) as H2
      by (apply Qfloor_comp; now rewrite H).
  rewrite Hf, H2.
  assert (Qeq_bool (x - inject_Z (Qfloor y)) (1 # 2)
          = Qeq_bool (y - inject_Z (Qfloor y)) (1 # 2)) as ->
      by (now rewrite H).
  reflexivity.
Qed.

Lemma round_half_even_nonneg (x : Q) :
  (0 <= x)%Q -> 0 <= round_half_even x.
Proof.
  intros Hx. unfold round_half_even.
  assert (0 <= Qfloor x) as Hf
      by (change 0 with (Qfloor 0); now apply Qfloor_resp_le).
  destruct (_ =? 0); [exact Hf|].
  destruct (Qeq_bool _ _); [destruct (Z.even _)|]; lia.
Qed.

(** Rounding moves a number by a half at most. *)
Lemma round_half_even_near (x : Q) :
  (Qabs (inject_Z (round_half_even x) - x) <= 1 # 2)%Q.
Proof.
  pose proof (Qfloor_le x) as Hlow. pose proof (Qlt_floor x) as Hhigh.
  pose proof (Qfloor_le (2 * x)) as Hlow2.
  pose proof (Qlt_floor (2 * x)) as Hhigh2.
  rewrite inject_Z_plus in Hhigh, Hhigh2.
  apply Qabs_Qle_condition. unfold round_half_even.
  destruct (Qfloor (2 * x) - 2 * Qfloor x =? 0) eqn:Htwice.
  - apply Z.eqb_eq in Htwice.
    assert (Qfloor (2 * x) = 2 * Qfloor x) as Heq by lia.
    rewrite Heq, inject_Z_mult in Hhigh2. change (inject_Z 2) with 2%Q in *.
    change (inject_Z 1) with 1%Q in *. split; lra.
  - apply Z.eqb_neq in Htwice.
    assert (2 * Qfloor x + 1 <= Qfloor (2 * x)) as Hge.
    { assert (2 * Qfloor x < Qfloor (2 * x) + 1); [|lia].
      rewrite Zlt_Qlt, inject_Z_plus, inject_Z_mult.
      change (inject_Z 2) with 2%Q. change (inject_Z 1) with 1%Q in *. lra. }
    rewrite Zle_Qle, inject_Z_plus, inject_Z_mult in Hge.
    change (inject_Z 2) with 2%Q in *. change (inject_Z 1) with 1%Q in *.
    destruct (Qeq_bool _ _) eqn:Hhalf.
    + apply Qeq_bool_eq in Hhalf.
      destruct (Z.even _); [|rewrite inject_Z_plus;
                              change (inject_Z 1) with 1%Q]; split; lra.
    + rewrite inject_Z_plus. change (inject_Z 1) with 1%Q. split; lra.
Qed.

Lemma two_digits_decimal (n : Z) :
  0 <= n < 100 -> two_digits n = pretty (n / 10) +:+ pretty (n mod 10).
Proof.
  intros Hn.
  assert (forallb
            (fun n => String.eqb (two_digits n)
                                 (pretty (n / 10) +:+ pretty (n mod 10)))
            (seqZ 0 100) = true) as Hall by (vm_compute; reflexivity).
  rewrite forallb_forall in Hall. apply String.eqb_eq, Hall.
  apply list_elem_of_In, elem_of_seqZ. lia.
Qed.

(** ['{0:.2f}'.format(x)] on a number that is not negative: the count of
    hundredths nearest to it, written with two decimals. *)
Lemma format_2f_two_decimals (x : Q) :
  (0 <= x)%Q -> format_2f x = two_decimals (round_half_even (x * 100)).
Proof.
  intros Hx. unfold format_2f, two_decimals, Qlt_bool.
  assert (Qle_bool 0 x = true) as -> by (now apply Qle_bool_iff).
  cbn [negb].
  rewrite (round_half_even_comp (Qabs x * 100) (x * 100))
    by (now rewrite Qabs_pos).
  set (h := round_half_even (x * 100)).
  assert (0 <= h) as Hh.
  { apply round_half_even_nonneg.
    apply Qmult_le_0_compat; [exact Hx|discriminate]. }
  rewrite two_digits_decimal by (apply Z.mod_pos_bound; lia).
  replace (h mod 100 / 10) with (h / 10 mod 10)
    by (Z.to_euclidean_division_equations; lia).
  replace (h mod 100 mod 10) with (h mod 10)
    by (Z.to_euclidean_division_equations; lia).
  reflexivity.
Qed.

(** [int] drops the fractional part. *)
Lemma int_truncates (x : Q) : truncates x (int x).
Proof.
  destruct x as [p q]. unfold truncates, int, Qle, Qlt.
  cbn [Qnum Qden inject_Z Qplus Qminus Qopp].
  split; intros H; split; Z.to_euclidean_division_equations; nia.
Qed.

Lemma string_app_assoc (s1 s2 s3 : string) :
  (s1 +:+ s2) +:+ s3 = s1 +:+ s2 +:+ s3.
Proof.
  induction s1 as [|a s1 IH]; [reflexivity|].
  change (String a ((s1 +:+ s2) +:+ s3) = String a (s1 +:+ s2 +:+ s3)).
  now rewrite IH.
Qed.

Lemma writerow_row rt (epoch : Z) (hours : Q) (top1 top5 : string) :
  writerow rt [IntCell epoch; FloatCell hours; StrCell top1; StrCell top5]
  = pretty epoch +:+ tab +:+ float_repr rt hours +:+ tab +:+ top1 +:+ tab
    +:+ top5 +:+ crlf.
Proof.
  unfold writerow. cbn [map cell_text join].
  now rewrite !string_app_assoc.
Qed.

Lemma loop_calls_no_write FLAGS bpe e :
  Forall (fun ev => forall path content, ev <> WriteFile path content)
         (loop_calls FLAGS bpe e).
Proof.
  unfold loop_calls. induction (seqZ e (100 - e)) as [|k ks IH];
    cbn [flat_map app]; repeat constructor; try discriminate. exact IH.
Qed.

(** ** The driver: the lines of the report *)

(** The row of an evaluation that returns an accuracy from 0 to 1 is
    written as the line that reports it. *)
Lemma eval_phase_line FLAGS rt t0 bpe e v accuracy :
  evaluate_metrics rt (at_evaluation FLAGS bpe e v) !! "accuracy"
  = Some accuracy ->
  (0 <= accuracy)%Q ->
  report_line rt t0 (e + 1, at_evaluation FLAGS bpe e v)
    (writerow rt
       [IntCell (e + 1);
        FloatCell
          (inject_Z
             (int (clock rt (clock_reads (at_evaluation FLAGS bpe e v)) - t0))
           / 3600.0)%Q;
        StrCell (format_2f (accuracy * 100)%Q);
        StrCell (format_2f (accuracy * 100)%Q)]).
Proof.
  intros Haccuracy Hnonneg.
  exists accuracy, (int (clock rt (clock_reads (at_evaluation FLAGS bpe e v))
                         - t0)),
    (round_half_even (accuracy * 100 * 100)).
  cbn [fst snd].
  split; [exact Haccuracy|]. split; [apply int_truncates|]. split.
  - pose proof (round_half_even_near (accuracy * 100 * 100)) as Hnear.
    assert (accuracy * 100 * 100 == accuracy * 10000)%Q as Heq by ring.
    rewrite Heq in Hnear at 2.
    eapply Qle_lt_trans; [exact Hnear|reflexivity].
  - rewrite writerow_row.
    rewrite format_2f_two_decimals; [reflexivity|].
    apply Qmult_le_0_compat; [exact Hnonneg|discriminate].
Qed.

(** The loop when every evaluation can be made and returns an accuracy
    from 0 to 1: the rows it collects are written as the lines that
    report its evaluations. *)
Lemma epoch_loop_lines FLAGS rt t0 bpe :
  eval_batch_size FLAGS <> 0 ->
  (forall u, exists accuracy,
      evaluate_metrics rt u !! "accuracy" = Some accuracy /\
      (0 <= accuracy <= 1)%Q) ->
  forall fuel e results w,
    100 - e <= Z.of_nat fuel ->
    exists rows w',
      epoch_loop fuel FLAGS rt t0 bpe e results w
      = (Ok (Some (results ++ rows)), w') /\
      calls w' = calls w ++ loop_calls FLAGS bpe e /\
      files w' = files w /\
      Forall2 (report_line rt t0)
        (evaluations (Z.to_nat (100 - e)) FLAGS bpe e w)
        (map (writerow rt) rows).
Proof.
  intros Hebs Hacc. induction fuel as [|fuel IH]; intros e results w Hfuel.
  - assert ((e <? 100) = false) as Hge by lia.
    cbn [epoch_loop]. rewrite Hge. exists nil, w.
    rewrite loop_calls_done, !app_nil_r by lia.
    replace (Z.to_nat (100 - e)) with O by lia.
    repeat split. constructor.
  - cbn [epoch_loop]. destruct (e <? 100) eqn:Hlt.
    + apply Z.ltb_lt in Hlt.
      unfold mbind at 1. rewrite train_phase_run.
      fold (after_training FLAGS bpe e w).
      destruct (Hacc (at_evaluation FLAGS bpe e w))
        as (accuracy & Haccuracy & Hnonneg & _).
      unfold mbind at 1.
      rewrite (eval_phase_run FLAGS rt t0 (e + 1)
                 (after_training FLAGS bpe e w) accuracy Hebs Haccuracy).
      fold (at_evaluation FLAGS bpe e w).
      set (row := [IntCell (e + 1); _; _; _]).
      assert (100 - (e + 1) <= Z.of_nat fuel) as Hfuel' by lia.
      destruct (IH (e + 1) (results ++ [row]) (after_epoch FLAGS bpe e w)
                   Hfuel')
        as (rows & w' & Hrun & Hcalls & Hfiles & Hrows).
      exists (row :: rows), w'.
      change {| checkpoint := checkpoint (after_training FLAGS bpe e w);
                files := files (after_training FLAGS bpe e w);
                calls := calls (after_training FLAGS bpe e w)
                         ++ [Evaluate (NUM_EVAL_IMAGES / eval_batch_size FLAGS)];
                clock_reads :=
                  S (S (S (clock_reads (after_training FLAGS bpe e w)))) |}
        with (after_epoch FLAGS bpe e w).
      rewrite Hrun.
      split; [now rewrite <- app_assoc|].
      split; [|split].
      * rewrite Hcalls, (loop_calls_step _ _ _ Hlt).
        cbn [after_epoch at_evaluation after_training calls].
        now rewrite <- !app_assoc.
      * rewrite Hfiles. reflexivity.
      * replace (Z.to_nat (100 - e)) with (S (Z.to_nat (100 - (e + 1))))
          by lia.
        cbn [evaluations map]. constructor; [|exact Hrows].
        exact (eval_phase_line FLAGS rt t0 bpe e w accuracy Haccuracy Hnonneg).
    + apply Z.ltb_ge in Hlt. exists nil, w.
      rewrite loop_calls_done, !app_nil_r by lia.
      replace (Z.to_nat (100 - e)) with O by lia.
      repeat split. constructor.
Qed.

(** ** The driver: the claims *)

(** C7.  When nothing fails and every evaluation returns an accuracy from
    0 to 1, [main] writes the report once, after the loop, at
    [model_dir + '/epoch_results.tsv'], replacing whatever was there: the
    tab-separated header, then one line for each epoch the loop
    completed, in order.  The line of an epoch holds, between tabs, the
    epoch, the whole seconds from the start of the run to the end of the
    epoch's evaluation divided by 3600, and twice the accuracy of that
    evaluation times 100 with two decimals; an accuracy of 0.7123 reads
    ["71.23"]. *)
Theorem report_written_at_loop_exit FLAGS rt w url :
  tpu_grpc_url FLAGS rt = Ok url ->
  train_batch_size FLAGS <> 0 ->
  eval_batch_size FLAGS <> 0 ->
  (forall u, exists accuracy,
      evaluate_metrics rt u !! "accuracy" = Some accuracy /\
      (0 <= accuracy <= 1)%Q) ->
  exists lines content estimator_calls w',
    main FLAGS rt w = (Ok (Some tt), w') /\
    calls w'
    = calls w ++ estimator_calls
      ++ [WriteFile (model_dir FLAGS +:+ "/epoch_results.tsv") content] /\
    Forall (fun ev => forall path content, ev <> WriteFile path content)
           estimator_calls /\
    files w' = <[model_dir FLAGS +:+ "/epoch_results.tsv" := content]> (files w) /\
    content
    = "epoch" +:+ tab +:+ "hours" +:+ tab +:+ "top1Accuracy" +:+ tab
      +:+ "top5Accuracy" +:+ crlf +:+ String.concat "" lines /\
    Forall2 (report_line rt (clock rt (clock_reads w)))
      (evaluations
         (Z.to_nat (100 - default 0 (checkpoint w !! model_dir FLAGS)
                          / train_batch_size FLAGS))
         FLAGS (NUM_TRAIN_IMAGES / train_batch_size FLAGS)
         (default 0 (checkpoint w !! model_dir FLAGS) / train_batch_size FLAGS)
         (started w))
      lines /\
    (forall hundredths : Z,
        (Qabs (inject_Z hundredths - 0.7123 * 10000) < 1)%Q ->
        two_decimals hundredths = "71.23").
Proof.
  intros Hurl Htbs Hebs Hacc.
  set (e0 := default 0 (checkpoint w !! model_dir FLAGS)
             / train_batch_size FLAGS).
  set (bpe := NUM_TRAIN_IMAGES / train_batch_size FLAGS).
  assert (100 - e0 <= Z.of_nat (Z.to_nat (100 - e0))) as Hfuel by lia.
  destruct (epoch_loop_lines FLAGS rt (clock rt (clock_reads w)) bpe
              Hebs Hacc _ e0 [] (started w) Hfuel)
    as (rows & w2 & Hrun & Hcalls & Hfiles & Hlines).
  exists (map (writerow rt) rows),
    (writerow rt header +:+ writerows rt rows),
    (loop_calls FLAGS bpe e0).
  unfold main. rewrite Hurl. unfold lift at 1, mbind at 1.
  unfold mbind at 1. rewrite (startup_run FLAGS rt w Htbs).
  fold e0 bpe (started w).
  unfold mbind at 1. rewrite Hrun. cbn [app].
  unfold write_file, record_call, mbind, ret.
  eexists. split; [reflexivity|].
  cbn [calls files]. rewrite Hcalls, Hfiles.
  split; [unfold report_path; cbn [started calls]; now rewrite <- app_assoc|].
  split; [apply loop_calls_no_write|].
  split; [reflexivity|].
  split; [reflexivity|].
  split; [exact Hlines|].
  intros h Hh. apply Qabs_Qlt_condition in Hh.
  assert (h = 7123) as ->; [|vm_compute; reflexivity].
  destruct Hh as [Hlow Hhigh].
  assert (inject_Z 7122 < inject_Z h)%Q as H1
      by (change (inject_Z 7122) with 7122%Q; lra).
  assert (inject_Z h < inject_Z 7124)%Q as H2
      by (change (inject_Z 7124) with 7124%Q; lra).
  rewrite <- Zlt_Qlt in H1, H2. lia.
Qed.

Lemma steady_runtime_accuracy (w : world) :
  is_Some (evaluate_metrics steady_runtime w !! "accuracy").
Proof. eexists. vm_compute. reflexivity. Qed.

Lemma steady_runtime_accuracy_bounds (u : world) :
  exists accuracy,
    evaluate_metrics steady_runtime u !! "accuracy" = Some accuracy /\
    (0 <= accuracy <= 1)%Q.
Proof.
  exists 0.7123%Q. split; [vm_compute; reflexivity|].
  split; discriminate.
Qed.

(** The last epoch of a run in which the clock advances by an hour at
    each reading and the accuracy is 0.7123: the report holds the header
    and the line of epoch 100, three hours after the start. *)
Lemma report_written_at_loop_exit_witness :
  exists content w',
    main (local_flags "/model") steady_runtime (world_at "/model" 101376 None)
    = (Ok (Some tt), w') /\
    files w' !! "/model/epoch_results.tsv" = Some content /\
    content
    = "epoch" +:+ tab +:+ "hours" +:+ tab +:+ "top1Accuracy" +:+ tab
      +:+ "top5Accuracy" +:+ crlf
      +:+ "100" +:+ tab +:+ float_repr steady_runtime (10800 / 3600.0)%Q
      +:+ tab +:+ "71.23" +:+ tab +:+ "71.23" +:+ crlf.
Proof.
  destruct (report_written_at_loop_exit (local_flags "/model") steady_runtime
              (world_at "/model" 101376 None) None)
    as (lines & content & tr & w' & Hrun & _ & _ & Hfiles & Hcontent
        & Hlines & Hformat).
  - reflexivity.
  - discriminate.
  - discriminate.
  - exact steady_runtime_accuracy_bounds.
  - exists content, w'.
    split; [exact Hrun|]. split; [rewrite Hfiles; apply lookup_insert_eq|].
    rewrite Hcontent. do 8 f_equal.
    change (Z.to_nat _) with 1%nat in Hlines.
    cbn [evaluations] in Hlines.
    inversion Hlines as [|evaluation line ? rest Hline Hrest]; subst.
    inversion Hrest; subst.
    destruct Hline as (accuracy & seconds & hundredths & Haccuracy & Hseconds
                       & Hhundredths & ->).
    cbn [fst snd] in *.
    assert (accuracy = 0.7123%Q) as -> by (vm_compute in Haccuracy; congruence).
    rewrite (Hformat hundredths Hhundredths).
    assert (seconds = 10800) as ->.
    { destruct Hseconds as [Hpositive _].
      destruct Hpositive as [Hlow Hhigh]; [vm_compute; discriminate|].
      assert (inject_Z 10800 < inject_Z (seconds + 1))%Q as H1.
      { rewrite inject_Z_plus. eapply Qle_lt_trans; [|exact Hhigh].
        vm_compute. discriminate. }
      assert (inject_Z seconds <= inject_Z 10800)%Q as H2.
      { eapply Qle_trans; [exact Hlow|]. vm_compute. discriminate. }
      rewrite <- Zlt_Qlt in H1. rewrite <- Zle_Qle in H2. lia. }
    cbn [String.concat]. reflexivity.
Defined.

(** C8 (amended).  Every evaluation [main] asks for, in any run, is over
    [NUM_EVAL_IMAGES // eval_batch_size] batches; each iteration of a run in
    which nothing fails asks for one, straight after its training; and for
    a batch size of 1024 that is 48 batches, which leaves 848 images
    out. *)
Theorem evaluation_truncated :
  NUM_EVAL_IMAGES / 1024 = 48 /\
  NUM_EVAL_IMAGES - 48 * 1024 = 848 /\
  (forall FLAGS rt w,
      exists tr,
        calls (snd (main FLAGS rt w)) = calls w ++ tr /\
        Forall (evaluates_truncated FLAGS) tr) /\
  (forall FLAGS rt w url,
      tpu_grpc_url FLAGS rt = Ok url ->
      train_batch_size FLAGS <> 0 ->
      eval_batch_size FLAGS <> 0 ->
      (forall w, is_Some (evaluate_metrics rt w !! "accuracy")) ->
      exists report,
        calls (snd (main FLAGS rt w))
        = calls w
          ++ flat_map
               (fun epoch =>
                  [Train ((epoch + 1)
                          * (NUM_TRAIN_IMAGES / train_batch_size FLAGS));
                   Evaluate (NUM_EVAL_IMAGES / eval_batch_size FLAGS)])
               (seqZ (default 0 (checkpoint w !! model_dir FLAGS)
                      / train_batch_size FLAGS)
                     (100 - default 0 (checkpoint w !! model_dir FLAGS)
                            / train_batch_size FLAGS))
          ++ [report]).
Proof.
  split; [reflexivity|]. split; [reflexivity|]. split.
  - intros FLAGS rt w. apply appends_main.
  - intros FLAGS rt w url Hurl Htbs Hebs Hacc.
    destruct (main_run FLAGS rt w url Hurl Htbs Hebs Hacc)
      as (rows & w' & Hrun & Hcalls & _).
    eexists. rewrite Hrun. cbn [snd]. exact Hcalls.
Qed.

Lemma evaluation_truncated_witness :
  exists report,
    calls (snd (main (local_flags "/model") steady_runtime
                  (world_at "/model" 100352 None)))
    = [Train 123849; Evaluate 48; Train 125100; Evaluate 48; report].
Proof.
  destruct evaluation_truncated as (_ & _ & _ & Hrun).
  destruct (Hrun (local_flags "/model") steady_runtime
              (world_at "/model" 100352 None) None)
    as (report & Hcalls).
  - reflexivity.
  - discriminate.
  - discriminate.
  - exact steady_runtime_accuracy.
  - exists report. rewrite Hcalls. vm_compute. reflexivity.
Defined.

(** C8 as stated fails: the 48 batches of 1024 images that the default
    run evaluates leave 848 images of the 50000 out, not 512. *)
Lemma evaluation_remainder_is_not_512 :
  NUM_EVAL_IMAGES / eval_batch_size (local_flags "/model") = 48 /\
  NUM_EVAL_IMAGES
  - NUM_EVAL_IMAGES / eval_batch_size (local_flags "/model")
    * eval_batch_size (local_flags "/model")
  <> 512.
Proof.
  split; [reflexivity|]. vm_compute. discriminate.
Qed.

(** C9 (amended).  With [use_tpu] set and neither [--master] nor
    [--tpu_name] given, [main] raises [RuntimeError] at once: the world is
    as it was, nothing has been read, trained or evaluated, and nothing is
    tried again. *)
Theorem missing_endpoint_is_fatal_on_tpu FLAGS rt w :
  use_tpu FLAGS = true ->
  master FLAGS = None ->
  tpu_name FLAGS = None ->
  main FLAGS rt w
  = (Raise (RuntimeError "You must specify either --master or --tpu_name."), w).
Proof.
  intros Htpu Hmaster Hname. unfold main, tpu_grpc_url.
  rewrite Htpu, Hmaster, Hname. reflexivity.
Qed.

Lemma missing_endpoint_is_fatal_on_tpu_witness :
  main (default_flags "/model") steady_runtime fresh_world
  = (Raise (RuntimeError "You must specify either --master or --tpu_name."),
     fresh_world).
Proof.
  apply missing_endpoint_is_fatal_on_tpu; reflexivity.
Defined.

(** C9 as stated fails: without [use_tpu], a run with neither [--master]
    nor [--tpu_name] does not fail; it trains. *)
Lemma missing_endpoint_accepted_without_tpu :
  master (local_flags "/model") = None /\
  tpu_name (local_flags "/model") = None /\
  fst (main (local_flags "/model") steady_runtime fresh_world) = Ok (Some tt) /\
  head (calls (snd (main (local_flags "/model") steady_runtime fresh_world)))
  = Some (Train 1251).
Proof.
  repeat split; vm_compute; reflexivity.
Qed.

(** C10.  When the epoch derived at startup,
    [current_step // train_batch_size], is 100 or more, [main] makes no
    call to train or evaluate; its one effect besides reading the clock
    is to write the header row alone to [model_dir + '/epoch_results.tsv'],
    in place of whatever the file held. *)
Theorem restart_after_completion_rewrites_report FLAGS rt w url :
  tpu_grpc_url FLAGS rt = Ok url ->
  train_batch_size FLAGS <> 0 ->
  100 <= default 0 (checkpoint w !! model_dir FLAGS) / train_batch_size FLAGS ->
  exists w',
    main FLAGS rt w = (Ok (Some tt), w') /\
    calls w'
    = calls w
      ++ [WriteFile (model_dir FLAGS +:+ "/epoch_results.tsv")
            ("epoch" +:+ tab +:+ "hours" +:+ tab +:+ "top1Accuracy" +:+ tab
             +:+ "top5Accuracy" +:+ crlf)] /\
    checkpoint w' = checkpoint w /\
    files w'
    = <[model_dir FLAGS +:+ "/epoch_results.tsv" :=
          "epoch" +:+ tab +:+ "hours" +:+ tab +:+ "top1Accuracy" +:+ tab
          +:+ "top5Accuracy" +:+ crlf]> (files w) /\
    files w' !! (model_dir FLAGS +:+ "/epoch_results.tsv")
    = Some ("epoch" +:+ tab +:+ "hours" +:+ tab +:+ "top1Accuracy" +:+ tab
            +:+ "top5Accuracy" +:+ crlf).
Proof.
  intros Hurl Htbs Hdone.
  unfold main. rewrite Hurl. unfold lift at 1, mbind at 1.
  unfold mbind at 1. rewrite (startup_run FLAGS rt w Htbs).
  set (e0 := default 0 (checkpoint w !! model_dir FLAGS)
             / train_batch_size FLAGS) in *.
  assert ((e0 <? 100) = false) as Hge by lia.
  unfold mbind at 1.
  destruct (Z.to_nat (100 - e0)); cbn [epoch_loop]; rewrite Hge;
    (eexists; split; [reflexivity|]; cbn [calls checkpoint files];
     repeat split; apply lookup_insert_eq).
Qed.

Lemma restart_after_completion_rewrites_report_witness :
  exists w',
    main (local_flags "/model") steady_runtime
      (world_at "/model" 125100
         (Some ("epoch" +:+ tab +:+ "hours" +:+ tab +:+ "top1Accuracy" +:+ tab
                +:+ "top5Accuracy" +:+ crlf
                +:+ "100" +:+ tab +:+ "31.5" +:+ tab +:+ "76.01" +:+ tab
                +:+ "76.01" +:+ crlf)))
    = (Ok (Some tt), w') /\
    train_targets (calls w') = [] /\
    files w' !! "/model/epoch_results.tsv"
    = Some ("epoch" +:+ tab +:+ "hours" +:+ tab +:+ "top1Accuracy" +:+ tab
            +:+ "top5Accuracy" +:+ crlf).
Proof.
  destruct (restart_after_completion_rewrites_report
              (local_flags "/model") steady_runtime
              (world_at "/model" 125100
                 (Some ("epoch" +:+ tab +:+ "hours" +:+ tab +:+ "top1Accuracy"
                        +:+ tab +:+ "top5Accuracy" +:+ crlf
                        +:+ "100" +:+ tab +:+ "31.5" +:+ tab +:+ "76.01"
                        +:+ tab +:+ "76.01" +:+ crlf)))
              None)
    as (w' & Hrun & Hcalls & _ & _ & Hfile).
  - reflexivity.
  - discriminate.
  - vm_compute. discriminate.
  - exists w'. split; [exact Hrun|]. split; [|exact Hfile].
    rewrite Hcalls. reflexivity.
Defined.

(** C2.  With the default batch size of 1024 an epoch is
    [1281167 // 1024 = 1251] steps.  Started on the global step 6255, the
    end of the fifth epoch, the driver derives the epoch
    [6255 // 1024 = 6], not [6255 // 1251 = 5]. *)
Theorem startup_epoch_at_step_6255 :
  fst (startup (local_flags "/model") steady_runtime
         (world_at "/model" 6255 None))
  = Ok (0%Q, 6, 1251) /\
  NUM_TRAIN_IMAGES / train_batch_size (local_flags "/model") = 1251 /\
  6255 / (NUM_TRAIN_IMAGES / train_batch_size (local_flags "/model")) = 5.
Proof.
  repeat split; vm_compute; reflexivity.
Qed.

(** C1.  With the default batch size of 1024, a run from step 0 killed as
    its fifth training phase returns has persisted the step
    [5 * 1251 = 6255]; left alone it would next train to [6 * 1251 = 7506];
    started again on that checkpoint it trains to [7 * 1251 = 8757]. *)
Theorem restart_after_fifth_epoch_skips_one :
  let FLAGS := local_flags "/model" in
  let steps_per_epoch := NUM_TRAIN_IMAGES / train_batch_size FLAGS in
  let uninterrupted := snd (main FLAGS steady_runtime fresh_world) in
  let stopped := snd (main_until_trained 5 FLAGS steady_runtime fresh_world) in
  let restarted := snd (main FLAGS steady_runtime (restart stopped)) in
  calls stopped = firstn 9 (calls uninterrupted) /\
  checkpoint stopped !! "/model" = Some (5 * steps_per_epoch) /\
  nth_error (train_targets (calls uninterrupted)) 5 = Some (6 * steps_per_epoch) /\
  head (train_targets (calls restarted)) = Some (7 * steps_per_epoch).
Proof.
  repeat split; vm_compute; reflexivity.
Qed.

(** * Further properties *)

(** ** learning_rate_schedule: the whole curve *)

(** The rate on each of the five stretches of the schedule. *)
Lemma learning_rate_schedule_cases (FLAGS : flags) (e : Q) :
  ((e < 5)%Q /\
   learning_rate_schedule FLAGS e
   = (scaled_lr FLAGS * 1.0 * e / inject_Z 5)%Q) \/
  ((5 <= e)%Q /\ (e < 30)%Q /\
   learning_rate_schedule FLAGS e = (scaled_lr FLAGS * 1.0)%Q) \/
  ((30 <= e)%Q /\ (e < 60)%Q /\
   learning_rate_schedule FLAGS e = (scaled_lr FLAGS * 0.1)%Q) \/
  ((60 <= e)%Q /\ (e < 80)%Q /\
   learning_rate_schedule FLAGS e = (scaled_lr FLAGS * 0.01)%Q) \/
  ((80 <= e)%Q /\
   learning_rate_schedule FLAGS e = (scaled_lr FLAGS * 0.001)%Q).
Proof.
  destruct (Qlt_le_dec e 5) as [H5|H5].
  { left. split; [exact H5|]. now apply warmup_rate. }
  right. unfold learning_rate_schedule. cbn [nth fst snd].
  destruct (Qlt_le_dec e 30) as [H30|H30].
  { left. split; [exact H5|]. split; [exact H30|].
    apply (lr_decay_loop_last _ _ []); [unfold inject_Z; lra|].
    repeat constructor; cbn [snd]; unfold inject_Z; lra. }
  right. destruct (Qlt_le_dec e 60) as [H60|H60].
  { left. split; [exact H30|]. split; [exact H60|].
    apply (lr_decay_loop_last _ _ [_]); [unfold inject_Z; lra|].
    repeat constructor; cbn [snd]; unfold inject_Z; lra. }
  right. destruct (Qlt_le_dec e 80) as [H80|H80].
  { left. split; [exact H60|]. split; [exact H80|].
    apply (lr_decay_loop_last _ _ [_; _]); [unfold inject_Z; lra|].
    repeat constructor; cbn [snd]; unfold inject_Z; lra. }
  right. split; [exact H80|].
  apply (lr_decay_loop_last _ _ [_; _; _]); [unfold inject_Z; lra|].
  constructor.
Qed.

Ltac schedule_cases FLAGS e :=
  let H := fresh "Hcase" in
  destruct (learning_rate_schedule_cases FLAGS e)
    as [[? H]|[(? & ? & H)|[(? & ? & H)|[(? & ? & H)|[? H]]]]];
  rewrite H; clear H.

Ltac qlinear := unfold Qdiv, inject_Z in *; cbn [Qinv Qnum Qden] in *; lra.

(** X1.  For a batch size that is not negative, the rate at an epoch that
    is not negative lies between 0 and the scaled base rate
    [BASE_LEARNING_RATE * train_batch_size / 256]: the schedule never
    overshoots its peak. *)
Theorem learning_rate_bounded (FLAGS : flags) (e : Q) :
  0 <= train_batch_size FLAGS ->
  (0 <= e)%Q ->
  (0 <= learning_rate_schedule FLAGS e)%Q /\
  (learning_rate_schedule FLAGS e
   <= BASE_LEARNING_RATE * (inject_Z (train_batch_size FLAGS) / 256.0))%Q.
Proof.
  intros Hb He. fold (scaled_lr FLAGS).
  pose proof (scaled_lr_nonneg FLAGS Hb) as Hs.
  schedule_cases FLAGS e; try (split; qlinear).
  assert (0 <= scaled_lr FLAGS * e)%Q as H0 by (now apply Qmult_le_0_compat).
  assert (scaled_lr FLAGS * e <= scaled_lr FLAGS * 5)%Q as H1.
  { rewrite !(Qmult_comm (scaled_lr FLAGS)).
    apply Qmult_le_compat_r; [lra|exact Hs]. }
  split; qlinear.
Qed.

Lemma learning_rate_bounded_witness :
  (0 <= learning_rate_schedule (default_flags "/model") 12.5)%Q /\
  (learning_rate_schedule (default_flags "/model") 12.5
   <= BASE_LEARNING_RATE * (inject_Z 1024 / 256.0))%Q.
Proof.
  apply (learning_rate_bounded (default_flags "/model") 12.5%Q).
  - cbn. lia.
  - lra.
Defined.

(** X2.  For a batch size that is not negative, the rate does not
    increase from epoch 5 on: each later stretch is at or below the one
    before. *)
Theorem learning_rate_decays_after_warmup (FLAGS : flags) (e1 e2 : Q) :
  0 <= train_batch_size FLAGS ->
  (5 <= e1)%Q ->
  (e1 <= e2)%Q ->
  (learning_rate_schedule FLAGS e2 <= learning_rate_schedule FLAGS e1)%Q.
Proof.
  intros Hb H5 H12.
  pose proof (scaled_lr_nonneg FLAGS Hb) as Hs.
  schedule_cases FLAGS e1; schedule_cases FLAGS e2; qlinear.
Qed.

Lemma learning_rate_decays_after_warmup_witness :
  (learning_rate_schedule (default_flags "/model") 61
   <= learning_rate_schedule (default_flags "/model") 29)%Q.
Proof.
  apply learning_rate_decays_after_warmup.
  - cbn. lia.
  - lra.
  - lra.
Defined.

(** X3.  For a positive batch size the rate is positive at every epoch
    after 0: it is never set to 0 again, at epoch 90 or later either. *)
Theorem learning_rate_positive (FLAGS : flags) (e : Q) :
  0 < train_batch_size FLAGS ->
  (0 < e)%Q ->
  (0 < learning_rate_schedule FLAGS e)%Q.
Proof.
  intros Hb He.
  assert (0 < scaled_lr FLAGS)%Q as Hs.
  { unfold scaled_lr, BASE_LEARNING_RATE.
    assert (0 < inject_Z (train_batch_size FLAGS))%Q as H.
    { change 0%Q with (inject_Z 0). now rewrite <- Zlt_Qlt. }
    unfold Qdiv. cbn [Qinv Qnum Qden]. lra. }
  schedule_cases FLAGS e; try qlinear.
  assert (0 < scaled_lr FLAGS * e)%Q as H0 by (now apply Qmult_lt_0_compat).
  qlinear.
Qed.

Lemma learning_rate_positive_witness :
  (0 < learning_rate_schedule (default_flags "/model") 95)%Q.
Proof.
  apply learning_rate_positive.
  - cbn. lia.
  - lra.
Defined.

(** X4.  The linear scaling rule: at every epoch the rates of two runs
    are in the ratio of their batch sizes. *)
Theorem learning_rate_scales_with_batch_size (FLAGS1 FLAGS2 : flags) (e : Q) :
  (learning_rate_schedule FLAGS1 e * inject_Z (train_batch_size FLAGS2)
   == learning_rate_schedule FLAGS2 e * inject_Z (train_batch_size FLAGS1))%Q.
Proof.
  destruct (learning_rate_schedule_cases FLAGS1 e)
    as [[? H1]|[(? & ? & H1)|[(? & ? & H1)|[(? & ? & H1)|[? H1]]]]];
  destruct (learning_rate_schedule_cases FLAGS2 e)
    as [[? H2]|[(? & ? & H2)|[(? & ? & H2)|[(? & ? & H2)|[? H2]]]]];
  try (exfalso; lra);
  rewrite H1, H2; unfold scaled_lr, BASE_LEARNING_RATE;
  unfold Qdiv; cbn [Qinv Qnum Qden]; ring.
Qed.

(** X5.  Before epoch 5 the rate is the linear ramp
    [scaled_lr * current_epoch / 5]; none of the thresholds acts. *)
Theorem learning_rate_warmup_is_linear (FLAGS : flags) (e : Q) :
  (e < 5)%Q ->
  (learning_rate_schedule FLAGS e
   == BASE_LEARNING_RATE * (inject_Z (train_batch_size FLAGS) / 256.0)
      * e / 5)%Q.
Proof.
  intros He. rewrite warmup_rate by exact He.
  unfold scaled_lr, inject_Z. field.
Qed.

Lemma learning_rate_warmup_is_linear_witness :
  (learning_rate_schedule (default_flags "/model") 2.5
   == BASE_LEARNING_RATE * (inject_Z 1024 / 256.0) * 2.5 / 5)%Q.
Proof.
  apply (learning_rate_warmup_is_linear (default_flags "/model") 2.5%Q). lra.
Defined.

(** ** get_custom_getter: every request *)

(** X6.  A request without a [dtype] keyword raises [KeyError] and the
    wrapped getter is not called: the outcome is the same for every
    getter. *)
Theorem custom_getter_needs_dtype getter args (kwargs : gmap string kwarg) :
  kwargs !! "dtype" = None ->
  inner_custom_getter getter args kwargs = Raise (KeyError "dtype").
Proof.
  intros Hd. unfold inner_custom_getter, getitem. now rewrite Hd.
Qed.

Lemma custom_getter_needs_dtype_witness :
  inner_custom_getter true_getter [PyObj "kernel"]
    {["shape" := PyObj "[3, 3, 64, 64]"]}
  = Raise (KeyError "dtype").
Proof.
  apply custom_getter_needs_dtype. reflexivity.
Defined.

(** X7.  A request for a dtype other than [bfloat16] is handed to the
    wrapped getter with its arguments untouched, and what the getter
    returns or raises is returned or raised as it is. *)
Theorem custom_getter_passes_other_dtypes getter args
    (kwargs : gmap string kwarg) (requested : dtype) :
  kwargs !! "dtype" = Some (DType requested) ->
  requested <> bfloat16 ->
  inner_custom_getter getter args kwargs = getter args kwargs.
Proof.
  intros Hd Hne.
  assert (is_bfloat16 (DType requested) = false) as Hb
      by (destruct requested; try reflexivity; congruence).
  now rewrite (inner_custom_getter_other _ _ _ (DType requested) Hd Hb).
Qed.

Lemma custom_getter_passes_other_dtypes_witness :
  inner_custom_getter true_getter [PyObj "gamma"]
    {["dtype" := DType float32; "shape" := PyObj "[64]"]}
  = Ok (TfVariable [PyObj "gamma"]
          {["dtype" := DType float32; "shape" := PyObj "[64]"]}).
Proof.
  apply (custom_getter_passes_other_dtypes true_getter [PyObj "gamma"]
           {["dtype" := DType float32; "shape" := PyObj "[64]"]} float32).
  - reflexivity.
  - discriminate.
Defined.

(** X8.  A request for [bfloat16] reaches the wrapped getter with only
    the [dtype] keyword changed, to [float32]; an exception of the getter
    is passed on; and what is returned is a cast, never the variable
    itself. *)
Theorem custom_getter_bfloat16_request getter args
    (kwargs : gmap string kwarg) :
  kwargs !! "dtype" = Some (DType bfloat16) ->
  exists kwargs' : gmap string kwarg,
    kwargs' !! "dtype" = Some (DType float32) /\
    (forall key, key <> "dtype" -> kwargs' !! key = kwargs !! key) /\
    (forall e, getter args kwargs' = Raise e ->
               inner_custom_getter getter args kwargs = Raise e) /\
    (forall var, getter args kwargs' = Ok var ->
                 inner_custom_getter getter args kwargs
                 = Ok (Cast var float32)) /\
    (forall a k, inner_custom_getter getter args kwargs
                 <> Ok (TfVariable a k)).
Proof.
  intros Hd. exists (<["dtype" := DType float32]> kwargs).
  rewrite (inner_custom_getter_bfloat16 getter args kwargs Hd).
  split; [apply lookup_insert_eq|].
  split; [intros key Hkey; now apply lookup_insert_ne|].
  split; [intros e ->; reflexivity|].
  split; [intros var ->; reflexivity|].
  intros a k. destruct (getter args _); cbn [bind]; discriminate.
Qed.

Lemma custom_getter_bfloat16_request_witness :
  exists kwargs' : gmap string kwarg,
    kwargs' !! "shape" = Some (PyObj "[3, 3, 64, 64]") /\
    inner_custom_getter true_getter [PyObj "kernel"]
      {["dtype" := DType bfloat16; "shape" := PyObj "[3, 3, 64, 64]"]}
    = Ok (Cast (TfVariable [PyObj "kernel"] kwargs') float32).
Proof.
  destruct (custom_getter_bfloat16_request true_getter [PyObj "kernel"]
              {["dtype" := DType bfloat16; "shape" := PyObj "[3, 3, 64, 64]"]})
    as (kwargs' & _ & Hrest & _ & Hok & _).
  - reflexivity.
  - exists kwargs'. split.
    + rewrite Hrest by discriminate. reflexivity.
    + apply Hok. reflexivity.
Defined.

(** ** resnet_model_fn: modes and failures *)

(** X9.  In [PREDICT] mode the model function reads neither the labels,
    nor [params], nor the variables, the global step or the update
    operations of the graph; what it returns holds the predictions
    ['classes'] and ['probabilities'], no loss and no train operation. *)
Theorem resnet_model_fn_predict FLAGS g g' features labels labels'
    (params params' : gmap string Z) :
  resnet_model_fn FLAGS g features labels ModeKeys.PREDICT params
  = resnet_model_fn FLAGS g' features labels' ModeKeys.PREDICT params' /\
  (forall spec,
      resnet_model_fn FLAGS g features labels ModeKeys.PREDICT params = Ok spec ->
      map fst (predictions spec) = ["classes"; "probabilities"] /\
      loss spec = None /\ train_op spec = None).
Proof.
  unfold resnet_model_fn.
  change (String.eqb ModeKeys.PREDICT ModeKeys.PREDICT) with true.
  cbv iota.
  split; [reflexivity|].
  intros spec.
  destruct (match features with
            | FeatureDict d => getitem d "feature"
            | FeatureTensor t => Ok t
            end) as [t|]; cbn [bind]; [|discriminate].
  intros [= <-]. repeat split.
Qed.

Lemma resnet_model_fn_predict_witness :
  exists spec,
    resnet_model_fn (default_flags "/model") (small_graph [1; 2] [1])%Q
      (FeatureTensor (Placeholder "images")) (Placeholder "labels")
      ModeKeys.PREDICT ∅
    = Ok spec /\
    map fst (predictions spec) = ["classes"; "probabilities"] /\
    loss spec = None /\ train_op spec = None.
Proof.
  destruct (resnet_model_fn (default_flags "/model")
              (small_graph [1; 2] [1])%Q
              (FeatureTensor (Placeholder "images")) (Placeholder "labels")
              ModeKeys.PREDICT ∅) as [spec|e] eqn:Hrun.
  - exists spec. split; [reflexivity|].
    exact (proj2 (resnet_model_fn_predict _ _ (small_graph [] []) _ _
                    (Placeholder "none") _ ∅) spec Hrun).
  - exfalso. vm_compute in Hrun. discriminate.
Defined.

(** X10.  In every mode but [PREDICT] the model function reads
    [params['batch_size']], which it then does not use: without that key
    it raises [KeyError], whatever the graph holds. *)
Theorem resnet_model_fn_needs_batch_size FLAGS g t labels mode
    (params : gmap string Z) :
  mode <> ModeKeys.PREDICT ->
  params !! "batch_size" = None ->
  resnet_model_fn FLAGS g (FeatureTensor t) labels mode params
  = Raise (KeyError "batch_size").
Proof.
  intros Hmode Hparams. apply String.eqb_neq in Hmode.
  unfold resnet_model_fn, getitem. cbn [bind].
  now rewrite Hmode, Hparams.
Qed.

Lemma resnet_model_fn_needs_batch_size_witness :
  resnet_model_fn (default_flags "/model") (small_graph [1; 2] [1])%Q
    (FeatureTensor (Placeholder "images")) (Placeholder "labels")
    ModeKeys.EVAL ∅
  = Raise (KeyError "batch_size").
Proof.
  apply resnet_model_fn_needs_batch_size; [discriminate|reflexivity].
Defined.

(** X11.  When no trainable variable is left after the variables with
    [batch_normalization] in their name are set aside (an empty graph, or
    one of normalization parameters only), training and evaluation fail
    with the [ValueError] of [tf.add_n] on an empty list. *)
Theorem resnet_model_fn_needs_decayed_variable FLAGS g t labels mode
    (params : gmap string Z) :
  mode <> ModeKeys.PREDICT ->
  is_Some (params !! "batch_size") ->
  Forall (fun v => contains "batch_normalization" (name v) = true)
         (trainable_variables g) ->
  resnet_model_fn FLAGS g (FeatureTensor t) labels mode params
  = Raise (ValueError "inputs must be a list of at least one Tensor").
Proof.
  intros Hmode [b Hb] Hall. apply String.eqb_neq in Hmode.
  assert (decayed (trainable_variables g) = []) as Hnone.
  { unfold decayed. induction Hall as [|v vars Hv _ IH]; [reflexivity|].
    cbn [List.filter]. now rewrite Hv. }
  unfold resnet_model_fn, getitem. cbn [bind]. rewrite Hmode, Hb.
  cbn [bind]. rewrite weight_decay_term_eq, Hnone. reflexivity.
Qed.

Lemma resnet_model_fn_needs_decayed_variable_witness :
  resnet_model_fn (default_flags "/model")
    {| trainable_variables :=
         [ {| name := "cg/batch_normalization/beta:0"; value := [0%Q] |} ];
       global_step := 0;
       update_ops := [] |}
    (FeatureTensor (Placeholder "images")) (Placeholder "labels")
    ModeKeys.TRAIN {["batch_size" := 1024]}
  = Raise (ValueError "inputs must be a list of at least one Tensor").
Proof.
  apply resnet_model_fn_needs_decayed_variable.
  - discriminate.
  - eexists. reflexivity.
  - repeat constructor.
Defined.

(** X12.  A specification the model function returns carries a train
    operation exactly when the mode is [TRAIN], and then the operation
    groups, with every update operation of the graph, the step by which
    the tower optimizer around a Nesterov momentum optimizer of momentum
    [MOMENTUM] minimizes the loss of the specification. *)
Theorem resnet_model_fn_train_op FLAGS g features labels mode params spec :
  resnet_model_fn FLAGS g features labels mode params = Ok spec ->
  (is_Some (train_op spec) <-> mode = ModeKeys.TRAIN) /\
  (forall op, train_op spec = Some op ->
              exists (learning_rate : Q) (total : tensor),
                loss spec = Some total /\
                op = Group
                       (Minimize
                          (TowerOptimizer
                             (MomentumOptimizer learning_rate MOMENTUM true))
                          total)
                       (update_ops g)).
Proof.
  unfold resnet_model_fn.
  destruct (match features with
            | FeatureDict d => getitem d "feature"
            | FeatureTensor t => Ok t
            end) as [t|]; cbn [bind]; [|discriminate].
  destruct (String.eqb mode ModeKeys.PREDICT) eqn:Hp.
  - apply String.eqb_eq in Hp. intros [= <-]. cbn [train_op]. split.
    + split; [intros [? [=]]|]. intros ->. discriminate.
    + intros op [=].
  - destruct (getitem params "batch_size"); cbn [bind]; [|discriminate].
    destruct (weight_decay_term g); cbn [bind]; [|discriminate].
    destruct (String.eqb mode ModeKeys.TRAIN) eqn:Ht.
    + apply String.eqb_eq in Ht.
      destruct (truediv _ _); cbn [bind]; [|discriminate].
      intros [= <-]. cbn [train_op loss]. split.
      * split; [intros _; exact Ht|]. intros _. eexists. reflexivity.
      * intros op [= <-]. eexists _, _. split; reflexivity.
    + apply String.eqb_neq in Ht. cbn [bind].
      intros [= <-]. cbn [train_op]. split.
      * split; [intros [? [=]]|]. intros H. contradiction.
      * intros op [=].
Qed.

Lemma resnet_model_fn_train_op_witness :
  exists spec learning_rate total,
    resnet_model_fn (default_flags "/model") (small_graph [1; 2] [1])%Q
      (FeatureTensor (Placeholder "images")) (Placeholder "labels")
      ModeKeys.TRAIN {["batch_size" := 1024]}
    = Ok spec /\
    loss spec = Some total /\
    train_op spec
    = Some (Group
              (Minimize
                 (TowerOptimizer
                    (MomentumOptimizer learning_rate MOMENTUM true))
                 total)
              [UpdateOp "cg/batch_normalization/AssignMovingAvg"]).
Proof.
  destruct (resnet_model_fn (default_flags "/model")
              (small_graph [1; 2] [1])%Q
              (FeatureTensor (Placeholder "images")) (Placeholder "labels")
              ModeKeys.TRAIN {["batch_size" := 1024]}) as [spec|e] eqn:Hrun.
  - destruct (resnet_model_fn_train_op _ _ _ _ _ _ _ Hrun) as [Hiff Hgroup].
    destruct (proj2 Hiff eq_refl) as [op Hop].
    destruct (Hgroup op Hop) as (lr & total & Hloss & ->).
    exists spec, lr, total. split; [reflexivity|]. split; assumption.
  - exfalso. vm_compute in Hrun. discriminate.
Defined.

(** X13.  Features given as a dictionary are read at the key
    ['feature']: the result is that of the call on the tensor stored
    there, and a dictionary without the key raises [KeyError] in every
    mode. *)
Theorem resnet_model_fn_feature_dict FLAGS g (d : gmap string tensor) labels
    mode params :
  (forall t, d !! "feature" = Some t ->
             resnet_model_fn FLAGS g (FeatureDict d) labels mode params
             = resnet_model_fn FLAGS g (FeatureTensor t) labels mode params) /\
  (d !! "feature" = None ->
   resnet_model_fn FLAGS g (FeatureDict d) labels mode params
   = Raise (KeyError "feature")).
Proof.
  unfold resnet_model_fn, getitem. split.
  - intros t ->. reflexivity.
  - intros ->. reflexivity.
Qed.

Lemma resnet_model_fn_feature_dict_witness :
  resnet_model_fn (default_flags "/model") (small_graph [1; 2] [1])%Q
    (FeatureDict {["feature" := Placeholder "images"]}) (Placeholder "labels")
    ModeKeys.EVAL {["batch_size" := 1024]}
  = resnet_model_fn (default_flags "/model") (small_graph [1; 2] [1])%Q
      (FeatureTensor (Placeholder "images")) (Placeholder "labels")
      ModeKeys.EVAL {["batch_size" := 1024]} /\
  resnet_model_fn (default_flags "/model") (small_graph [1; 2] [1])%Q
    (FeatureDict {["image" := Placeholder "images"]}) (Placeholder "labels")
    ModeKeys.PREDICT {["batch_size" := 1024]}
  = Raise (KeyError "feature").
Proof.
  split.
  - apply (proj1 (resnet_model_fn_feature_dict _ _ _ _ _ _)). reflexivity.
  - apply (proj2 (resnet_model_fn_feature_dict _ _ _ _ _ _)). reflexivity.
Defined.

(** ** resnet_model_fn: the learning rate of the train operation *)

Lemma Qpower_2_pos (e : Z) : (0 < Qpower 2 e)%Q.
Proof. apply Qpower_0_lt. reflexivity. Qed.

Lemma round_to_precision_nonneg (prec : Z) (x : Q) :
  (0 <= x)%Q -> (0 <= round_to_precision prec x)%Q.
Proof.
  intros Hx. unfold round_to_precision.
  destruct (Qeq_bool x 0); [apply Qle_refl|].
  cbv zeta. apply Qmult_le_0_compat.
  - change 0%Q with (inject_Z 0). rewrite <- Zle_Qle.
    apply round_half_even_nonneg.
    apply Qle_shift_div_l; [apply Qpower_2_pos|]. now rewrite Qmult_0_l.
  - apply Qlt_le_weak, Qpower_2_pos.
Qed.

Lemma Qdiv_nonneg (a b : Q) : (0 <= a)%Q -> (0 <= b)%Q -> (0 <= a / b)%Q.
Proof.
  intros Ha Hb. unfold Qdiv. apply Qmult_le_0_compat; [exact Ha|].
  now apply Qinv_le_0_compat.
Qed.

(** The epoch at which the model reads the schedule: the [float32]
    quotient of the global step, cast to [float32], by the batches per
    epoch, a Python float that becomes a [float32] constant. *)
Lemma resnet_model_fn_train_run FLAGS g features labels params spec :
  train_batch_size FLAGS <> 0 ->
  resnet_model_fn FLAGS g features labels ModeKeys.TRAIN params = Ok spec ->
  exists total,
    loss spec = Some total /\
    train_op spec
    = Some (Group
              (Minimize
                 (TowerOptimizer
                    (MomentumOptimizer
                       (learning_rate_schedule FLAGS
                          (round_float32
                             (round_float32 (inject_Z (global_step g))
                              / round_float32
                                  (round_float64
                                     (inject_Z NUM_TRAIN_IMAGES
                                      / inject_Z (train_batch_size FLAGS))))))%Q
                       MOMENTUM true))
                 total)
              (update_ops g)).
Proof.
  intros Htbs. apply Z.eqb_neq in Htbs. unfold resnet_model_fn.
  destruct (match features with
            | FeatureDict d => getitem d "feature"
            | FeatureTensor t => Ok t
            end) as [t|]; cbn [bind]; [|discriminate].
  change (String.eqb ModeKeys.TRAIN ModeKeys.PREDICT) with false.
  change (String.eqb ModeKeys.TRAIN ModeKeys.TRAIN) with true.
  cbv iota.
  destruct (getitem params "batch_size"); cbn [bind]; [|discriminate].
  destruct (weight_decay_term g); cbn [bind]; [|discriminate].
  unfold truediv. rewrite Htbs. cbn [bind].
  intros [= <-]. cbn [loss train_op]. eexists. split; reflexivity.
Qed.

(** X14.  In [TRAIN] mode, for a batch size from 1 to the size of the
    training set and a global step that an [int64] holds, the learning
    rate of the optimizer is the schedule at an epoch computed in
    [float32]: the step cast to [float32], divided by
    [NUM_TRAIN_IMAGES / train_batch_size], itself a Python float turned
    [float32].  That epoch is not negative, and the rate lies between 0
    and the scaled base rate. *)
Theorem train_op_learning_rate FLAGS g features labels params spec :
  0 < train_batch_size FLAGS <= NUM_TRAIN_IMAGES ->
  0 <= global_step g < 2 ^ 63 ->
  resnet_model_fn FLAGS g features labels ModeKeys.TRAIN params = Ok spec ->
  exists (current_epoch learning_rate : Q) (total : tensor),
    loss spec = Some total /\
    train_op spec
    = Some (Group
              (Minimize
                 (TowerOptimizer
                    (MomentumOptimizer learning_rate MOMENTUM true))
                 total)
              (update_ops g)) /\
    current_epoch
    = round_float32
        (round_float32 (inject_Z (global_step g))
         / round_float32
             (round_float64
                (inject_Z NUM_TRAIN_IMAGES
                 / inject_Z (train_batch_size FLAGS))))%Q /\
    learning_rate = learning_rate_schedule FLAGS current_epoch /\
    (0 <= current_epoch)%Q /\
    (0 <= learning_rate)%Q /\
    (learning_rate
     <= BASE_LEARNING_RATE * (inject_Z (train_batch_size FLAGS) / 256.0))%Q.
Proof.
  intros Htbs Hstep Hrun.
  destruct (resnet_model_fn_train_run FLAGS g features labels params spec)
    as (total & Hloss & Hop); [lia|exact Hrun|].
  eexists _, _, total. split; [exact Hloss|]. split; [exact Hop|].
  split; [reflexivity|]. split; [reflexivity|].
  fold (scaled_lr FLAGS).
  assert (0 <= train_batch_size FLAGS) as Hb by lia.
  pose proof (scaled_lr_nonneg FLAGS Hb) as Hs.
  assert (0 <= round_float32
                 (round_float32 (inject_Z (global_step g))
                  / round_float32
                      (round_float64
                         (inject_Z NUM_TRAIN_IMAGES
                          / inject_Z (train_batch_size FLAGS)))))%Q as He.
  { assert (0 < inject_Z (train_batch_size FLAGS))%Q as Ht
        by (change 0%Q with (inject_Z 0); rewrite <- Zlt_Qlt; lia).
    assert (0 <= inject_Z (global_step g))%Q as Hg
        by (change 0%Q with (inject_Z 0); rewrite <- Zle_Qle; lia).
    unfold round_float32, round_float64.
    repeat first [apply round_to_precision_nonneg | apply Qdiv_nonneg];
      [exact Hg|discriminate|now apply Qlt_le_weak]. }
  set (e := round_float32 _) in *.
  split; [exact He|].
  schedule_cases FLAGS e; try (split; qlinear).
  assert (0 <= scaled_lr FLAGS * e)%Q as H0 by (now apply Qmult_le_0_compat).
  assert (scaled_lr FLAGS * e <= scaled_lr FLAGS * 5)%Q as H1.
  { rewrite !(Qmult_comm (scaled_lr FLAGS)).
    apply Qmult_le_compat_r; [lra|exact Hs]. }
  split; qlinear.
Qed.

(** At batch size 1 and step 38435010, where the exact quotient is past
    30, the [float32] epoch is 15728639/524288, below 30, and the rate is
    still that of the plateau that follows the warmup. *)
Lemma train_op_learning_rate_witness :
  exists (spec : EstimatorSpec) (learning_rate : Q) (total : tensor),
    resnet_model_fn (with_train_batch_size 1 (default_flags "/model"))
      {| trainable_variables :=
           [ {| name := "cg/conv2d/kernel:0"; value := [1%Q] |} ];
         global_step := 38435010;
         update_ops := [] |}
      (FeatureTensor (Placeholder "images")) (Placeholder "labels")
      ModeKeys.TRAIN {["batch_size" := 1]}
    = Ok spec /\
    train_op spec
    = Some (Group
              (Minimize
                 (TowerOptimizer
                    (MomentumOptimizer learning_rate MOMENTUM true))
                 total)
              []) /\
    (learning_rate == 0.000390625)%Q.
Proof.
  set (FLAGS := with_train_batch_size 1 (default_flags "/model")).
  set (g := {| trainable_variables :=
                 [ {| name := "cg/conv2d/kernel:0"; value := [1%Q] |} ];
               global_step := 38435010;
               update_ops := [] |}).
  destruct (resnet_model_fn FLAGS g
              (FeatureTensor (Placeholder "images")) (Placeholder "labels")
              ModeKeys.TRAIN {["batch_size" := 1]}) as [spec|e] eqn:Hrun.
  - assert (0 < train_batch_size FLAGS <= NUM_TRAIN_IMAGES) as Htbs
        by (cbn; unfold NUM_TRAIN_IMAGES; lia).
    assert (0 <= global_step g < 2 ^ 63) as Hstep by (cbn; lia).
    destruct (train_op_learning_rate _ _ _ _ _ _ Htbs Hstep Hrun)
      as (epoch & lr & total & _ & Hop & -> & -> & _).
    eexists spec, _, total. split; [reflexivity|]. split; [exact Hop|].
    vm_compute. reflexivity.
  - exfalso. vm_compute in Hrun. discriminate.
Defined.

(** ** The weight decay: sign and names *)

Lemma sum_l2_loss_nonneg (vars : list variable) : (0 <= sum_l2_loss vars)%Q.
Proof.
  unfold sum_l2_loss. induction vars as [|v vars IH]; cbn [map fold_right].
  - lra.
  - pose proof (l2_loss_nonneg v). lra.
Qed.

Lemma sum_l2_loss_zero (vars : list variable) :
  (sum_l2_loss vars == 0)%Q <->
  Forall (fun v => Forall (fun x => x == 0)%Q (value v)) vars.
Proof.
  unfold sum_l2_loss. induction vars as [|v vars IH]; cbn [map fold_right].
  - split; [constructor|reflexivity].
  - pose proof (l2_loss_nonneg v) as Hv.
    pose proof (sum_l2_loss_nonneg vars) as Hvars. unfold sum_l2_loss in Hvars.
    split.
    + intros H. constructor.
      * apply l2_loss_zero. lra.
      * apply IH. lra.
    + intros H. inversion H as [|? ? Hv0 Hrest]; subst.
      apply l2_loss_zero in Hv0. apply IH in Hrest. lra.
Qed.

(** X16.  The weight decay is never negative, and it is 0 when every
    entry of every variable that enters it is 0. *)
Theorem weight_decay_nonneg (g : graph) (p : Q) :
  weight_decay_term g = Ok p ->
  (0 <= p)%Q /\
  (Forall (fun v => Forall (fun x => x == 0)%Q (value v))
          (decayed (trainable_variables g)) ->
   (p == 0)%Q).
Proof.
  intros Hp. apply weight_decay_term_value in Hp. subst p.
  pose proof (sum_l2_loss_nonneg (decayed (trainable_variables g))) as Hs.
  rewrite <- sum_l2_loss_zero.
  change WEIGHT_DECAY with (1 # 10000)%Q.
  split; [lra|]. intros H; lra.
Qed.

Lemma weight_decay_nonneg_witness :
  exists p : Q,
    weight_decay_term (small_graph [0; 0] [1])%Q = Ok p /\
    (0 <= p)%Q /\ (p == 0)%Q.
Proof.
  destruct (weight_decay_term (small_graph [0; 0] [1])%Q) as [p|e] eqn:Hp.
  - exists p. split; [reflexivity|].
    destruct (weight_decay_nonneg _ p Hp) as [Hle Hzero].
    split; [exact Hle|]. apply Hzero.
    repeat constructor.
  - exfalso. vm_compute in Hp. discriminate.
Defined.

(** X19.  Any variable with [batch_normalization] somewhere in its
    name, a convolution kernel under such a scope as much as a
    normalization scale, can take any value without changing the weight
    decay. *)
Theorem weight_decay_ignores_named (g g' : graph) before v v' after
    (scope rest : string) :
  trainable_variables g = (before ++ v :: after)%list ->
  trainable_variables g' = (before ++ v' :: after)%list ->
  name v = scope +:+ "batch_normalization" +:+ rest ->
  name v' = name v ->
  weight_decay_term g' = weight_decay_term g.
Proof.
  intros Hg Hg' Hname Hsame.
  assert (contains "batch_normalization" (name v) = true) as Hv
      by (apply contains_spec; eauto).
  rewrite !weight_decay_term_eq, Hg, Hg', !decayed_app.
  unfold decayed at 2 4. cbn [List.filter]. rewrite Hsame, Hv. reflexivity.
Qed.

Lemma weight_decay_ignores_named_witness :
  weight_decay_term
    {| trainable_variables :=
         [ {| name := "cg/no_batch_normalization_block/conv2d/kernel:0";
              value := [5; 6]%Q |};
           {| name := "cg/dense/kernel:0"; value := [1%Q] |} ];
       global_step := 0;
       update_ops := [] |}
  = weight_decay_term
      {| trainable_variables :=
           [ {| name := "cg/no_batch_normalization_block/conv2d/kernel:0";
                value := [0; 0]%Q |};
             {| name := "cg/dense/kernel:0"; value := [1%Q] |} ];
         global_step := 0;
         update_ops := [] |}.
Proof.
  apply (weight_decay_ignores_named _ _ []
           {| name := "cg/no_batch_normalization_block/conv2d/kernel:0";
              value := [0; 0]%Q |}
           {| name := "cg/no_batch_normalization_block/conv2d/kernel:0";
              value := [5; 6]%Q |}
           [ {| name := "cg/dense/kernel:0"; value := [1%Q] |} ]
           "cg/no_" "_block/conv2d/kernel:0"); reflexivity.
Defined.

(** ** main: runs that fail *)






(** X21.  With [--train_batch_size=0], a run that passes the endpoint
    check raises [ZeroDivisionError] when it derives the epoch: nothing
    has been trained, evaluated or written. *)
Theorem zero_train_batch_size FLAGS rt w url :
  tpu_grpc_url FLAGS rt = Ok url ->
  train_batch_size FLAGS = 0 ->
  exists w',
    main FLAGS rt w = (Raise ZeroDivisionError, w') /\
    calls w' = calls w /\
    files w' = files w /\
    checkpoint w' = checkpoint w.
Proof.
  intros Hurl Htbs. unfold main. rewrite Hurl.
  unfold lift at 1, mbind at 1. unfold mbind at 1.
  unfold startup, mbind, load_global_step_from_checkpoint_dir, time_time, lift,
    floordiv, ret.
  rewrite Htbs. cbn [Z.eqb]. eexists. split; [reflexivity|].
  repeat split.
Qed.

Lemma zero_train_batch_size_witness :
  fst (main {| use_tpu := false; gcp_project := None; tpu_zone := None;
               tpu_name := None; master := None; data_dir := None;
               model_dir := "/model"; resnet_depth := 50;
               train_steps := 112590; train_batch_size := 0;
               eval_batch_size := 1024; steps_per_eval := 1251;
               iterations_per_loop := 1251; num_parallel_calls := 8;
               num_cores := 8; mode := "train";
               data_format := "channels_last"; export_dir := None;
               min_eval_interval := 1800; eval_timeout := None |}
            steady_runtime fresh_world)
  = Raise ZeroDivisionError.
Proof.
  destruct (zero_train_batch_size
              {| use_tpu := false; gcp_project := None; tpu_zone := None;
                 tpu_name := None; master := None; data_dir := None;
                 model_dir := "/model"; resnet_depth := 50;
                 train_steps := 112590; train_batch_size := 0;
                 eval_batch_size := 1024; steps_per_eval := 1251;
                 iterations_per_loop := 1251; num_parallel_calls := 8;
                 num_cores := 8; mode := "train";
                 data_format := "channels_last"; export_dir := None;
                 min_eval_interval := 1800; eval_timeout := None |}
              steady_runtime fresh_world None eq_refl eq_refl)
    as (w' & Hrun & _).
  now rewrite Hrun.
Defined.

Lemma main_enters_loop FLAGS rt w url :
  tpu_grpc_url FLAGS rt = Ok url ->
  train_batch_size FLAGS <> 0 ->
  default 0 (checkpoint w !! model_dir FLAGS) / train_batch_size FLAGS < 100 ->
  exists fuel,
    main FLAGS rt w
    = mbind
        (mbind
           (train_phase FLAGS (NUM_TRAIN_IMAGES / train_batch_size FLAGS)
              (default 0 (checkpoint w !! model_dir FLAGS)
               / train_batch_size FLAGS))
           (fun current_epoch =>
              mbind (eval_phase FLAGS rt (clock rt (clock_reads w))
                                current_epoch)
                    (fun row =>
                       epoch_loop fuel FLAGS rt (clock rt (clock_reads w))
                         (NUM_TRAIN_IMAGES / train_batch_size FLAGS)
                         current_epoch ([] ++ [row]))))
        (fun results =>
           match results with
           | None => ret None
           | Some results =>
               mbind (write_file (report_path FLAGS)
                        (writerow rt header +:+ writerows rt results))
                     (fun _ => ret (Some tt))
           end)
        {| checkpoint := checkpoint w;
           files := files w;
           calls := calls w;
           clock_reads := S (clock_reads w) |}.
Proof.
  intros Hurl Htbs Hlt. unfold main. rewrite Hurl.
  unfold lift at 1, mbind at 1. unfold mbind at 1.
  rewrite (startup_run FLAGS rt w Htbs).
  set (e0 := default 0 (checkpoint w !! model_dir FLAGS)
             / train_batch_size FLAGS) in *.
  destruct (Z.to_nat (100 - e0)) as [|fuel] eqn:Hfuel; [lia|].
  exists fuel. cbn [epoch_loop].
  assert ((e0 <? 100) = true) as -> by lia. reflexivity.
Qed.

(** X22.  With [--eval_batch_size=0], a run that reaches the loop trains
    its first epoch and only then raises [ZeroDivisionError]: there is one
    call to train, none to evaluate, and no report. *)
Theorem zero_eval_batch_size FLAGS rt w url :
  tpu_grpc_url FLAGS rt = Ok url ->
  train_batch_size FLAGS <> 0 ->
  default 0 (checkpoint w !! model_dir FLAGS) / train_batch_size FLAGS < 100 ->
  eval_batch_size FLAGS = 0 ->
  exists w',
    main FLAGS rt w = (Raise ZeroDivisionError, w') /\
    calls w'
    = calls w
      ++ [Train ((default 0 (checkpoint w !! model_dir FLAGS)
                  / train_batch_size FLAGS + 1)
                 * (NUM_TRAIN_IMAGES / train_batch_size FLAGS))] /\
    files w' = files w.
Proof.
  intros Hurl Htbs Hlt Hebs.
  destruct (main_enters_loop FLAGS rt w url Hurl Htbs Hlt) as [fuel ->].
  unfold mbind at 1 2. rewrite train_phase_run.
  unfold mbind at 1.
  unfold eval_phase, mbind, time_time, lift, floordiv.
  rewrite Hebs. cbn [Z.eqb]. eexists. split; [reflexivity|].
  split; reflexivity.
Qed.

Lemma zero_eval_batch_size_witness :
  exists w',
    main {| use_tpu := false; gcp_project := None; tpu_zone := None;
            tpu_name := None; master := None; data_dir := None;
            model_dir := "/model"; resnet_depth := 50;
            train_steps := 112590; train_batch_size := 1024;
            eval_batch_size := 0; steps_per_eval := 1251;
            iterations_per_loop := 1251; num_parallel_calls := 8;
            num_cores := 8; mode := "train";
            data_format := "channels_last"; export_dir := None;
            min_eval_interval := 1800; eval_timeout := None |}
         steady_runtime fresh_world
    = (Raise ZeroDivisionError, w') /\
    calls w' = [Train 1251].
Proof.
  destruct (zero_eval_batch_size
              {| use_tpu := false; gcp_project := None; tpu_zone := None;
                 tpu_name := None; master := None; data_dir := None;
                 model_dir := "/model"; resnet_depth := 50;
                 train_steps := 112590; train_batch_size := 1024;
                 eval_batch_size := 0; steps_per_eval := 1251;
                 iterations_per_loop := 1251; num_parallel_calls := 8;
                 num_cores := 8; mode := "train";
                 data_format := "channels_last"; export_dir := None;
                 min_eval_interval := 1800; eval_timeout := None |}
              steady_runtime fresh_world None)
    as (w' & Hrun & Hcalls & _).
  - reflexivity.
  - discriminate.
  - vm_compute. reflexivity.
  - reflexivity.
  - exists w'. split; [exact Hrun|]. rewrite Hcalls. reflexivity.
Defined.

(** X23.  When the metrics of the first evaluation hold no ['accuracy'],
    the run raises [KeyError] after one call to train and one to
    evaluate, and writes no report. *)
Theorem evaluation_without_accuracy FLAGS rt w url :
  tpu_grpc_url FLAGS rt = Ok url ->
  train_batch_size FLAGS <> 0 ->
  eval_batch_size FLAGS <> 0 ->
  default 0 (checkpoint w !! model_dir FLAGS) / train_batch_size FLAGS < 100 ->
  (forall w, evaluate_metrics rt w !! "accuracy" = None) ->
  exists w',
    main FLAGS rt w = (Raise (KeyError "accuracy"), w') /\
    calls w'
    = calls w
      ++ [Train ((default 0 (checkpoint w !! model_dir FLAGS)
                  / train_batch_size FLAGS + 1)
                 * (NUM_TRAIN_IMAGES / train_batch_size FLAGS));
          Evaluate (NUM_EVAL_IMAGES / eval_batch_size FLAGS)] /\
    files w' = files w.
Proof.
  intros Hurl Htbs Hebs Hlt Hnone. apply Z.eqb_neq in Hebs.
  destruct (main_enters_loop FLAGS rt w url Hurl Htbs Hlt) as [fuel ->].
  unfold mbind at 1 2. rewrite train_phase_run.
  unfold mbind at 1.
  unfold eval_phase, mbind, time_time, lift, floordiv, estimator_evaluate,
    record_call, getitem, mbind.
  rewrite Hebs. cbn [checkpoint files calls clock_reads].
  rewrite Hnone. eexists. split; [reflexivity|].
  cbn [calls files]. split; [now rewrite <- app_assoc|reflexivity].
Qed.

Lemma evaluation_without_accuracy_witness :
  exists w',
    main (local_flags "/model")
         {| clock := fun n => inject_Z (Z.of_nat n);
            evaluate_metrics := fun _ => {["loss" := 1.25%Q]};
            float_repr := fun _ => "0.0";
            get_master := fun _ _ _ => "" |}
         fresh_world
    = (Raise (KeyError "accuracy"), w') /\
    calls w' = [Train 1251; Evaluate 48].
Proof.
  destruct (evaluation_without_accuracy (local_flags "/model")
              {| clock := fun n => inject_Z (Z.of_nat n);
                 evaluate_metrics := fun _ => {["loss" := 1.25%Q]};
                 float_repr := fun _ => "0.0";
                 get_master := fun _ _ _ => "" |}
              fresh_world None)
    as (w' & Hrun & Hcalls & _).
  - reflexivity.
  - discriminate.
  - discriminate.
  - vm_compute. reflexivity.
  - intros w. reflexivity.
  - exists w'. split; [exact Hrun|]. rewrite Hcalls. reflexivity.
Defined.

(** ** main: where a run starts *)

Lemma main_first_call FLAGS rt w url :
  tpu_grpc_url FLAGS rt = Ok url ->
  train_batch_size FLAGS <> 0 ->
  default 0 (checkpoint w !! model_dir FLAGS) / train_batch_size FLAGS < 100 ->
  exists tr,
    calls (snd (main FLAGS rt w))
    = calls w
      ++ Train ((default 0 (checkpoint w !! model_dir FLAGS)
                 / train_batch_size FLAGS + 1)
                * (NUM_TRAIN_IMAGES / train_batch_size FLAGS)) :: tr.
Proof.
  intros Hurl Htbs Hlt.
  destruct (main_enters_loop FLAGS rt w url Hurl Htbs Hlt) as [fuel ->].
  set (e0 := default 0 (checkpoint w !! model_dir FLAGS)
             / train_batch_size FLAGS).
  set (bpe := NUM_TRAIN_IMAGES / train_batch_size FLAGS).
  set (t0 := clock rt (clock_reads w)).
  set (w1 := {| checkpoint := checkpoint w; files := files w;
                calls := calls w; clock_reads := S (clock_reads w) |}).
  set (finish := fun results : option (list (list cell)) =>
                   match results with
                   | Some results =>
                       mbind (write_file (report_path FLAGS)
                                (writerow rt header +:+ writerows rt results))
                             (fun _ => ret (Some tt))
                   | None => ret None
                   end).
  assert (appends (evaluates_truncated FLAGS)
            (mbind
               (mbind (eval_phase FLAGS rt t0 (e0 + 1))
                      (fun row =>
                         epoch_loop fuel FLAGS rt t0 bpe (e0 + 1)
                                    ([] ++ [row])))
               finish)) as Hrest.
  { apply appends_bind.
    - apply appends_bind; [apply appends_eval_phase|].
      intros row. apply appends_epoch_loop.
    - intros [results|]; [|apply appends_ret].
      apply appends_bind; [|intros; apply appends_ret].
      now apply appends_write. }
  destruct (Hrest (snd (train_phase FLAGS bpe e0 w1))) as (tr & Hcalls & _).
  exists tr.
  change (calls w ++ Train ((e0 + 1) * bpe) :: tr)
    with (calls w ++ [Train ((e0 + 1) * bpe)] ++ tr).
  rewrite app_assoc. exact Hcalls.
Qed.

(** X24.  A run that passes the endpoint check with a batch size other
    than 0 and a derived epoch [current_step // train_batch_size] below
    100 first calls train, up to the step
    [(current_step // train_batch_size + 1)
     * (NUM_TRAIN_IMAGES // train_batch_size)],
    whatever happens later in the run. *)
Theorem first_training_target FLAGS rt w url :
  tpu_grpc_url FLAGS rt = Ok url ->
  train_batch_size FLAGS <> 0 ->
  default 0 (checkpoint w !! model_dir FLAGS) / train_batch_size FLAGS < 100 ->
  exists tr,
    calls (snd (main FLAGS rt w))
    = calls w
      ++ Train ((default 0 (checkpoint w !! model_dir FLAGS)
                 / train_batch_size FLAGS + 1)
                * (NUM_TRAIN_IMAGES / train_batch_size FLAGS)) :: tr.
Proof. exact (main_first_call FLAGS rt w url). Qed.

Lemma first_training_target_witness :
  exists tr,
    calls (snd (main (local_flags "/model") steady_runtime
                  (world_at "/model" 3000 None)))
    = Train 3753 :: tr.
Proof.
  destruct (first_training_target (local_flags "/model") steady_runtime
              (world_at "/model" 3000 None) None) as [tr Hcalls].
  - reflexivity.
  - discriminate.
  - vm_compute. reflexivity.
  - exists tr. exact Hcalls.
Defined.

(** X25.  Started on the step [E * steps_per_epoch] that the training of
    epoch [E] persists, the driver goes on to the step
    [(E + 1) * steps_per_epoch] exactly when
    [E * train_batch_size <= E * steps_per_epoch
     < (E + 1) * train_batch_size], where [steps_per_epoch] is
    [NUM_TRAIN_IMAGES // train_batch_size]. *)
Theorem resumes_on_target_iff FLAGS rt w url (E : Z) :
  tpu_grpc_url FLAGS rt = Ok url ->
  0 < train_batch_size FLAGS ->
  0 < NUM_TRAIN_IMAGES / train_batch_size FLAGS ->
  checkpoint w !! model_dir FLAGS
  = Some (E * (NUM_TRAIN_IMAGES / train_batch_size FLAGS)) ->
  E * (NUM_TRAIN_IMAGES / train_batch_size FLAGS) / train_batch_size FLAGS
  < 100 ->
  (exists tr,
      calls (snd (main FLAGS rt w))
      = calls w
        ++ Train ((E + 1) * (NUM_TRAIN_IMAGES / train_batch_size FLAGS)) :: tr)
  <->
  E * train_batch_size FLAGS
  <= E * (NUM_TRAIN_IMAGES / train_batch_size FLAGS)
  < (E + 1) * train_batch_size FLAGS.
Proof.
  intros Hurl Htbs Hbpe Hstep Hlt.
  destruct (main_first_call FLAGS rt w url Hurl) as [tr0 Hfirst];
    [lia|rewrite Hstep; exact Hlt|].
  rewrite Hstep in Hfirst. cbn [from_option] in Hfirst. unfold id in Hfirst.
  set (tbs := train_batch_size FLAGS) in *.
  set (bpe := NUM_TRAIN_IMAGES / tbs) in *.
  assert (E * bpe / tbs = E <-> E * tbs <= E * bpe < (E + 1) * tbs) as Hdiv.
  { split.
    - intros Hq.
      pose proof (Z.mul_div_le (E * bpe) tbs Htbs) as Hlow.
      pose proof (Z.mul_succ_div_gt (E * bpe) tbs Htbs) as Hhigh.
      rewrite Hq in Hlow, Hhigh. lia.
    - intros [Hlow Hhigh]. symmetry.
      apply (Z.div_unique (E * bpe) tbs E (E * bpe - E * tbs)); lia. }
  rewrite <- Hdiv. split.
  - intros [tr Hcalls]. rewrite Hfirst in Hcalls.
    apply app_inv_head in Hcalls. injection Hcalls as Htarget _.
    apply Z.mul_cancel_r in Htarget; lia.
  - intros Hq. exists tr0. rewrite Hfirst, Hq. reflexivity.
Qed.

Lemma resumes_on_target_iff_witness :
  exists tr,
    calls (snd (main (local_flags "/model") steady_runtime
                  (world_at "/model" 5004 None)))
    = Train 6255 :: tr.
Proof.
  assert (0 < train_batch_size (local_flags "/model")) as Htbs by (cbn; lia).
  assert (0 < NUM_TRAIN_IMAGES / train_batch_size (local_flags "/model"))
    as Hbpe by (vm_compute; reflexivity).
  assert (4 * (NUM_TRAIN_IMAGES / train_batch_size (local_flags "/model"))
          / train_batch_size (local_flags "/model") < 100)
    as Hlt by (vm_compute; reflexivity).
  destruct (proj2 (resumes_on_target_iff (local_flags "/model") steady_runtime
                     (world_at "/model" 5004 None) None 4
                     eq_refl Htbs Hbpe eq_refl Hlt)) as [tr Hcalls].
  - vm_compute. split; [discriminate|reflexivity].
  - exists tr. exact Hcalls.
Defined.

(** ** main: the rows of the report *)

Lemma eval_phase_row FLAGS rt t0 e w row w' :
  eval_phase FLAGS rt t0 e w = (Ok row, w') ->
  exists (seconds : Z) (accuracy : string),
    row = [IntCell e; FloatCell (inject_Z seconds / 3600.0)%Q;
           StrCell accuracy; StrCell accuracy].
Proof.
  unfold eval_phase, mbind, time_time, lift, floordiv, estimator_evaluate,
    record_call, getitem, ret, mbind.
  cbn [checkpoint files calls clock_reads].
  destruct (eval_batch_size FLAGS =? 0); [discriminate|].
  cbn [checkpoint files calls clock_reads].
  match goal with
  | |- context [evaluate_metrics rt ?x] =>
      destruct (evaluate_metrics rt x !! "accuracy")
  end; [|discriminate].
  intros [= <- _]. eexists _, _. reflexivity.
Qed.

Lemma epoch_loop_rows FLAGS rt t0 bpe fuel :
  forall e results w rows w',
    epoch_loop fuel FLAGS rt t0 bpe e results w = (Ok (Some rows), w') ->
    exists added,
      rows = results ++ added /\
      Forall (fun row =>
                exists (epoch seconds : Z) (accuracy : string),
                  row = [IntCell epoch;
                         FloatCell (inject_Z seconds / 3600.0)%Q;
                         StrCell accuracy; StrCell accuracy])
             added.
Proof.
  induction fuel as [|fuel IH]; intros e results w rows w'; cbn [epoch_loop];
    destruct (e <? 100);
    try (intros [= <- _]; exists nil; rewrite app_nil_r; now split);
    try discriminate.
  unfold mbind at 1. rewrite train_phase_run. unfold mbind at 1.
  destruct (eval_phase FLAGS rt t0 (e + 1) _) as [[row|err] w2] eqn:Heval;
    [|discriminate].
  intros Hloop. destruct (IH _ _ _ _ _ Hloop) as (added & -> & Hadded).
  exists (row :: added). split; [now rewrite <- app_assoc|].
  constructor; [|exact Hadded].
  destruct (eval_phase_row _ _ _ _ _ _ _ Heval) as (seconds & accuracy & ->).
  eexists _, _, _. reflexivity.
Qed.

(** X27.  Whenever [main] completes, every row below the header of the
    report it wrote has four fields: the epoch, a whole number of seconds
    divided by 3600, and the same text twice: the column [top5Accuracy]
    repeats [top1Accuracy]. *)
Theorem report_rows_repeat_accuracy FLAGS rt w w' :
  main FLAGS rt w = (Ok (Some tt), w') ->
  exists rows,
    files w' !! (model_dir FLAGS +:+ "/epoch_results.tsv")
    = Some (writerow rt header +:+ writerows rt rows) /\
    Forall (fun row =>
              exists (epoch seconds : Z) (accuracy : string),
                row = [IntCell epoch;
                       FloatCell (inject_Z seconds / 3600.0)%Q;
                       StrCell accuracy; StrCell accuracy])
           rows.
Proof.
  unfold main, mbind at 1, lift at 1.
  destruct (tpu_grpc_url FLAGS rt); [|discriminate].
  unfold mbind at 1.
  destruct (startup FLAGS rt w) as [[[[t0 e0] bpe]|err] w1]; [|discriminate].
  unfold mbind at 1.
  destruct (epoch_loop _ FLAGS rt t0 bpe e0 [] w1) as [[[rows|]|err] w2]
    eqn:Hloop; try discriminate.
  destruct (epoch_loop_rows _ _ _ _ _ _ _ _ _ _ Hloop) as (added & -> & Hrows).
  unfold write_file, record_call, mbind, ret. intros [= <-].
  exists added. cbn [files app]. split; [apply lookup_insert_eq|exact Hrows].
Qed.

Lemma report_rows_repeat_accuracy_witness :
  exists rows,
    files (snd (main (local_flags "/model") steady_runtime
                  (world_at "/model" 101376 None)))
    !! "/model/epoch_results.tsv"
    = Some (writerow steady_runtime header +:+ writerows steady_runtime rows) /\
    Forall (fun row =>
              exists (epoch seconds : Z) (accuracy : string),
                row = [IntCell epoch;
                       FloatCell (inject_Z seconds / 3600.0)%Q;
                       StrCell accuracy; StrCell accuracy])
           rows.
Proof.
  destruct (main (local_flags "/model") steady_runtime
              (world_at "/model" 101376 None)) as [r w'] eqn:Hrun.
  assert (r = Ok (Some tt)) as ->.
  { apply (f_equal fst) in Hrun. vm_compute in Hrun. now subst r. }
  exact (report_rows_repeat_accuracy _ _ _ _ Hrun).
Defined.
